(** * Screenshot capture scripts of dustland/openviber

    A shallow embedding of the three Playwright scripts
    [verify_landing.py], [verify_landing_mobile.py] and [verify_mobile.py],
    and the properties of their control flow, of the browser calls they
    make and of the file names they write. *)

From Stdlib Require Import String Ascii List ZArith Bool Arith Lia.
Import ListNotations.
Open Scope string_scope.

(** ** Python string methods used by the scripts *)

Module PyStr.

(** [s.replace(old, new)] at one-character [old] and [new], which is how
    [verify_mobile.py] calls it: every occurrence of the character is
    replaced, nothing else changes. *)
Fixpoint replace (old new : ascii) (s : string) : string :=
  match s with
  | EmptyString => EmptyString
  | String c s' =>
      String (if Ascii.eqb c old then new else c) (replace old new s')
  end.

(** Membership of a character in the [chars] argument of [strip]. *)
Fixpoint mem (c : ascii) (chars : string) : bool :=
  match chars with
  | EmptyString => false
  | String d chars' => Ascii.eqb c d || mem c chars'
  end.

(** [s.lstrip(chars)]: drop the longest prefix made of characters of [chars]. *)
Fixpoint lstrip (chars s : string) : string :=
  match s with
  | EmptyString => EmptyString
  | String c s' => if mem c chars then lstrip chars s' else s
  end.

(** [s.rstrip(chars)]: drop the longest suffix made of characters of [chars]. *)
Fixpoint rstrip (chars s : string) : string :=
  match s with
  | EmptyString => EmptyString
  | String c s' =>
      match rstrip chars s' with
      | EmptyString => if mem c chars then EmptyString else String c EmptyString
      | r => String c r
      end
  end.

(** [s.strip(chars)] *)
Definition strip (chars s : string) : string := rstrip chars (lstrip chars s).

(** Truth value of a string: [not s] holds exactly for the empty string. *)
Definition is_empty (s : string) : bool :=
  match s with EmptyString => true | _ => false end.

(** Every character of [s] belongs to [chars]. *)
Fixpoint all_in (chars s : string) : bool :=
  match s with
  | EmptyString => true
  | String c s' => mem c chars && all_in chars s'
  end.

(** First and last character of a string, when it has one. *)
Definition first_char (s : string) : option ascii :=
  match s with EmptyString => None | String c _ => Some c end.

Fixpoint last_char (s : string) : option ascii :=
  match s with
  | EmptyString => None
  | String c EmptyString => Some c
  | String _ s' => last_char s'
  end.

(** [s.startswith(c)] and [s.endswith(c)] for a character [c]. *)
Definition startswith (c : ascii) (s : string) : bool :=
  match first_char s with Some d => Ascii.eqb d c | None => false end.

Definition endswith (c : ascii) (s : string) : bool :=
  match last_char s with Some d => Ascii.eqb d c | None => false end.

(** [c in s] for a character. *)
Definition contains (c : ascii) (s : string) : bool := mem c s.

End PyStr.

(** ** Constants and file naming of [verify_mobile.py] *)

Definition PAGES : list string :=
  [ "/"; "/landing"; "/docs"; "/hub"; "/login"; "/onboarding";
    "/observability"; "/tasks"; "/vibers"; "/settings/general" ].

Definition BASE_URL : string := "http://localhost:6006".

(** [filename = path.replace("/", "_").strip("_")], then
    [if not filename: filename = "root"]. *)
Definition filename (path : string) : string :=
  let filename := PyStr.strip "_" (PyStr.replace "/" "_" path) in
  if PyStr.is_empty filename then "root" else filename.

(** [screenshot_path = f"verification/mobile/{filename}.png"] *)
Definition screenshot_path (path : string) : string :=
  "verification/mobile/" ++ filename path ++ ".png".

(** [url = f"{BASE_URL}{path}"] *)
Definition url_of (path : string) : string := BASE_URL ++ path.

(** ** The browser interface the scripts drive

    The scripts talk to a browser through Playwright's synchronous API.
    Its calls are modelled by their effect on an explicit [world]: the log
    of calls made, the files present on disk, the handles handed out and
    the address each page is at.  Whether a navigation, an idle wait or a
    screenshot succeeds is decided by the [server] and its surroundings,
    which the scripts do not control. *)

(** Exceptions of [playwright.sync_api]: [Error] and its subclass
    [TimeoutError]; both derive from Python's [Exception], so a bare
    [except:] and [except Exception] catch them alike. *)
Inductive error : Type :=
| Error (message : string)
| TimeoutError (message : string).

(** [str(e)], as interpolated by the f-strings. *)
Definition str (e : error) : string :=
  match e with Error m | TimeoutError m => m end.

Definition handle := nat.

Record ViewportSize : Type := { width : Z; height : Z }.

(** Keyword arguments of [browser.new_context]; an argument the call does
    not pass is [None]. *)
Record context_options : Type := {
  viewport : ViewportSize;
  user_agent : option string;
  device_scale_factor : option Z;
  is_mobile : option bool;
  has_touch : option bool
}.

Inductive event : Type :=
| EStart                                   (* entering [with sync_playwright()] *)
| EStop                                    (* leaving it, on any path *)
| ELaunch (headless : bool) (browser : handle)
| ENewContext (browser : handle) (opts : context_options) (context : handle)
| ENewPage (context : handle) (page : handle)
| EPrint (line : string)
| EGoto (page : handle) (url : string) (timeout : Z) (raised : option error)
| EWait (page : handle) (state : string) (timeout : option Z)
        (raised : option error)
| ESleep (seconds : Z)
| EScreenshot (page : handle) (path : string) (full_page : bool)
              (raised : option error)
| EClose (browser : handle).

(** What the scripts cannot decide: [nav url timeout] is the exception
    [page.goto] raises, if any; [idle url timeout] the one
    [page.wait_for_load_state] raises on a page that is at [url];
    [shot url path] the one [page.screenshot] raises on such a page when
    writing to [path].  The answers depend on the arguments of the call and
    on where the page is, not on the time of the call; no script asks the
    same question twice in a run, the ten routes being distinct. *)
Record server : Type := {
  nav : string -> Z -> option error;
  idle : string -> option Z -> option error;
  shot : string -> string -> option error
}.

Record world : Type := {
  log : list event;
  files : list string;
  next : handle;
  location : list (handle * string)
}.

Definition init : world :=
  {| log := []; files := []; next := 0; location := [] |}.

Definition emit_event (e : event) (w : world) : world :=
  {| log := log w ++ [e]; files := files w; next := next w;
     location := location w |}.

(** A file written at a path that exists is overwritten. *)
Definition add_file (path : string) (fs : list string) : list string :=
  if existsb (String.eqb path) fs then fs else fs ++ [path].

Fixpoint url_at (page : handle) (loc : list (handle * string)) : string :=
  match loc with
  | [] => "about:blank"
  | (p, u) :: loc' => if Nat.eqb p page then u else url_at page loc'
  end.

(** ** Python control flow: a state monad with [return] and exceptions *)

Inductive completion (A : Type) : Type :=
| Normal (a : A)           (* fell through to the next statement *)
| Returned                 (* executed [return] *)
| Raised (e : error).      (* an exception is propagating *)

Arguments Normal {A} a.
Arguments Returned {A}.
Arguments Raised {A} e.

Definition M (A : Type) : Type := server -> world -> completion A * world.

Definition ret {A} (a : A) : M A := fun _ w => (Normal a, w).

Definition bind {A B} (m : M A) (k : A -> M B) : M B :=
  fun sv w =>
    match m sv w with
    | (Normal a, w') => k a sv w'
    | (Returned, w') => (Returned, w')
    | (Raised e, w') => (Raised e, w')
    end.

Declare Scope py_scope.
Delimit Scope py_scope with py.
Notation "x <- m ;; k" := (bind m (fun x => k))
  (at level 61, m at next level, right associativity) : py_scope.
Notation "m ;; k" := (bind m (fun _ => k))
  (at level 61, right associativity) : py_scope.
Open Scope py_scope.

(** [return] *)
Definition py_return {A} : M A := fun _ w => (Returned, w).

(** [try: body / except ... as e: handler e] *)
Definition try_except (body : M unit) (handler : error -> M unit) : M unit :=
  fun sv w =>
    match body sv w with
    | (Raised e, w') => handler e sv w'
    | r => r
    end.

(** [for x in l: body x] *)
Fixpoint for_each {A} (l : list A) (body : A -> M unit) : M unit :=
  match l with
  | [] => ret tt
  | x :: l' => body x ;; for_each l' body
  end.

(** [with sync_playwright() as p: body]: the scope is left on every path,
    and what the body completed with is passed on. *)
Definition with_sync_playwright (body : M unit) : M unit :=
  fun sv w =>
    let (r, w') := body sv (emit_event EStart w) in
    (r, emit_event EStop w').

(** A function body: [return] ends the call, an exception leaves it. *)
Definition def (body : M unit) : M unit :=
  fun sv w =>
    match body sv w with
    | (Returned, w') => (Normal tt, w')
    | r => r
    end.

Definition emit (e : event) : M unit := fun _ w => (Normal tt, emit_event e w).

Definition print (line : string) : M unit := emit (EPrint line).

(** [time.sleep(seconds)] *)
Definition sleep (seconds : Z) : M unit := emit (ESleep seconds).

(** [p.chromium.launch(headless=...)] *)
Definition launch (headless : bool) : M handle :=
  fun _ w =>
    let b := next w in
    (Normal b, {| log := log w ++ [ELaunch headless b]; files := files w;
                  next := S b; location := location w |}).

(** [browser.new_context(...)] *)
Definition new_context (browser : handle) (opts : context_options) : M handle :=
  fun _ w =>
    let c := next w in
    (Normal c, {| log := log w ++ [ENewContext browser opts c];
                  files := files w; next := S c; location := location w |}).

(** [context.new_page()] *)
Definition new_page (context : handle) : M handle :=
  fun _ w =>
    let p := next w in
    (Normal p, {| log := log w ++ [ENewPage context p]; files := files w;
                  next := S p; location := location w |}).

(** [page.goto(url, timeout=...)] *)
Definition goto (page : handle) (url : string) (timeout : Z) : M unit :=
  fun sv w =>
    match nav sv url timeout with
    | Some e => (Raised e, emit_event (EGoto page url timeout (Some e)) w)
    | None =>
        (Normal tt, {| log := log w ++ [EGoto page url timeout None];
                       files := files w; next := next w;
                       location := (page, url) :: location w |})
    end.

(** [page.wait_for_load_state(state, timeout=...)]; without the keyword
    argument the timeout is Playwright's default, [None] here. *)
Definition wait_for_load_state (page : handle) (state : string)
    (timeout : option Z) : M unit :=
  fun sv w =>
    match idle sv (url_at page (location w)) timeout with
    | Some e => (Raised e, emit_event (EWait page state timeout (Some e)) w)
    | None => (Normal tt, emit_event (EWait page state timeout None) w)
    end.

(** [page.screenshot(path=..., full_page=...)] *)
Definition screenshot (page : handle) (path : string) (full_page : bool)
    : M unit :=
  fun sv w =>
    match shot sv (url_at page (location w)) path with
    | Some e =>
        (Raised e, emit_event (EScreenshot page path full_page (Some e)) w)
    | None =>
        (Normal tt, {| log := log w ++ [EScreenshot page path full_page None];
                       files := add_file path (files w); next := next w;
                       location := location w |})
    end.

(** [browser.close()] *)
Definition close (browser : handle) : M unit := emit (EClose browser).

(** ** The three scripts *)

Definition desktop_options : context_options :=
  {| viewport := {| width := 1440; height := 3000 |};
     user_agent := None; device_scale_factor := None;
     is_mobile := None; has_touch := None |}.

Definition landing_mobile_options : context_options :=
  {| viewport := {| width := 390; height := 844 |};
     user_agent := None; device_scale_factor := None;
     is_mobile := None; has_touch := None |}.

Definition mobile_options : context_options :=
  {| viewport := {| width := 390; height := 844 |};
     user_agent := Some "Mozilla/5.0 (iPhone; CPU iPhone OS 14_4 like Mac OS X) AppleWebKit/605.1.15 (KHTML, like Gecko) Version/14.0.3 Mobile/15E148 Safari/604.1";
     device_scale_factor := Some 3%Z;
     is_mobile := Some true; has_touch := Some true |}.

(** [verify_landing.py] *)
Definition verify_landing : M unit :=
  def (with_sync_playwright (
    browser <- launch true ;;
    context <- new_context browser desktop_options ;;
    page <- new_page context ;;
    print "Navigating to landing page..." ;;
    try_except
      (goto page "http://localhost:6006/landing" 60000)
      (fun e =>
         print ("Failed to navigate: " ++ str e) ;;
         close browser ;;
         py_return) ;;
    print "Waiting for network idle..." ;;
    wait_for_load_state page "networkidle" None ;;
    sleep 3 ;;
    print "Taking screenshot..." ;;
    screenshot page "verification_landing.png" true ;;
    print "Screenshot saved to verification_landing.png" ;;
    close browser)).

(** [verify_landing_mobile.py] *)
Definition verify_landing_mobile : M unit :=
  def (with_sync_playwright (
    browser <- launch true ;;
    context <- new_context browser landing_mobile_options ;;
    page <- new_page context ;;
    print "Navigating to landing page..." ;;
    try_except
      (goto page "http://localhost:6006/landing" 60000)
      (fun e =>
         print ("Failed to navigate: " ++ str e) ;;
         close browser ;;
         py_return) ;;
    print "Waiting for network idle..." ;;
    wait_for_load_state page "networkidle" None ;;
    sleep 3 ;;
    print "Taking mobile screenshot..." ;;
    screenshot page "verification_landing_mobile.png" true ;;
    print "Screenshot saved to verification_landing_mobile.png" ;;
    close browser)).

(** Body of the loop [for path in PAGES] of [verify_mobile.py]. *)
Definition route_body (page : handle) (path : string) : M unit :=
  let url := BASE_URL ++ path in
  print ("Testing " ++ url ++ "...") ;;
  try_except
    (goto page url 60000 ;;
     try_except
       (wait_for_load_state page "networkidle" (Some 10000%Z))
       (fun _ => print ("Network idle timeout for " ++ path ++ ", proceeding...")) ;;
     let screenshot_path := screenshot_path path in
     screenshot page screenshot_path true ;;
     print ("Saved screenshot to " ++ screenshot_path))
    (fun e => print ("Error testing " ++ path ++ ": " ++ str e)).

(** [verify_mobile_pages] with the module-level list it iterates over as
    an argument, so that the loop can be studied on any list of routes. *)
Definition verify_mobile_pages_over (pages : list string) : M unit :=
  def (with_sync_playwright (
    browser <- launch true ;;
    context <- new_context browser mobile_options ;;
    page <- new_page context ;;
    for_each pages (route_body page) ;;
    close browser)).

(** [verify_mobile.py] *)
Definition verify_mobile_pages : M unit := verify_mobile_pages_over PAGES.

(** [if __name__ == "__main__": f()]: the run starts from a fresh world;
    an exception that leaves [f] ends the process with status 1, anything
    else with status 0. *)
Definition run (f : M unit) (sv : server) : completion unit * world :=
  f sv init.

Definition exit_status (f : M unit) (sv : server) : Z :=
  match fst (run f sv) with
  | Raised _ => 1%Z
  | _ => 0%Z
  end.

Definition final (f : M unit) (sv : server) : world := snd (run f sv).

(** ** Reading a log *)

(** The navigations attempted, in order: page, address and timeout. *)
Fixpoint gotos (l : list event) : list (handle * string * Z) :=
  match l with
  | [] => []
  | EGoto p u t _ :: l' => (p, u, t) :: gotos l'
  | _ :: l' => gotos l'
  end.

(** The paths at which a screenshot was written. *)
Fixpoint shots_taken (l : list event) : list string :=
  match l with
  | [] => []
  | EScreenshot _ path _ None :: l' => path :: shots_taken l'
  | _ :: l' => shots_taken l'
  end.

(** The context configurations requested. *)
Fixpoint contexts_requested (l : list event) : list context_options :=
  match l with
  | [] => []
  | ENewContext _ o _ :: l' => o :: contexts_requested l'
  | _ :: l' => contexts_requested l'
  end.

Definition is_launch (e : event) : bool :=
  match e with ELaunch _ _ => true | _ => false end.
Definition is_new_context (e : event) : bool :=
  match e with ENewContext _ _ _ => true | _ => false end.
Definition is_new_page (e : event) : bool :=
  match e with ENewPage _ _ => true | _ => false end.
Definition is_close (e : event) : bool :=
  match e with EClose _ => true | _ => false end.
Definition is_screenshot (e : event) : bool :=
  match e with EScreenshot _ _ _ _ => true | _ => false end.

(** The page a call is made on, for the calls made on a page. *)
Definition page_of (e : event) : option handle :=
  match e with
  | EGoto p _ _ _ | EWait p _ _ _ | EScreenshot p _ _ _ => Some p
  | _ => None
  end.

Definition count (f : event -> bool) (l : list event) : nat :=
  List.length (filter f l).

(** Every call made on a page is made on [page]. *)
Definition on_page (page : handle) (e : event) : bool :=
  match page_of e with Some p => Nat.eqb p page | None => true end.

(** The log ends with the explicit [browser.close()] of [browser], followed
    only by leaving the Playwright scope. *)
Definition closes_last (browser : handle) (l : list event) : Prop :=
  exists l', l = (l' ++ [EClose browser; EStop])%list /\ count is_close l' = 0.

(** What one turn of the loop of [verify_mobile.py] is expected to log for
    [path], read off the three answers of the server. *)
Definition route_log (sv : server) (page : handle) (path : string)
    : list event :=
  let url := BASE_URL ++ path in
  EPrint ("Testing " ++ url ++ "...") ::
  match nav sv url 60000 with
  | Some e =>
      [EGoto page url 60000 (Some e);
       EPrint ("Error testing " ++ path ++ ": " ++ str e)]
  | None =>
      EGoto page url 60000 None ::
      EWait page "networkidle" (Some 10000%Z) (idle sv url (Some 10000%Z)) ::
      (match idle sv url (Some 10000%Z) with
       | Some _ =>
           [EPrint ("Network idle timeout for " ++ path ++ ", proceeding...")]
       | None => []
       end ++
       match shot sv url (screenshot_path path) with
       | Some e =>
           [EScreenshot page (screenshot_path path) true (Some e);
            EPrint ("Error testing " ++ path ++ ": " ++ str e)]
       | None =>
           [EScreenshot page (screenshot_path path) true None;
            EPrint ("Saved screenshot to " ++ screenshot_path path)]
       end)%list
  end.

(** A route is captured when its navigation and its screenshot both go
    through; the idle wait has no say. *)
Definition captured (sv : server) (path : string) : bool :=
  match nav sv (BASE_URL ++ path) 60000,
        shot sv (BASE_URL ++ path) (screenshot_path path) with
  | None, None => true
  | _, _ => false
  end.

(** The files on disk after one more route was captured. *)
Definition add_shot (fs : list string) (path : string) : list string :=
  add_file (screenshot_path path) fs.

(** No path occurs twice in a list. *)
Fixpoint nodupb (l : list string) : bool :=
  match l with
  | [] => true
  | x :: l' => negb (existsb (String.eqb x) l') && nodupb l'
  end.

(** The calls that open the browser, shared by the three scripts but for
    the context options. *)
Definition setup_log (opts : context_options) : list event :=
  [EStart; ELaunch true 0; ENewContext 0 opts 1; ENewPage 1 2].

(** The address both single-page scripts navigate to. *)
Definition LANDING_URL : string := "http://localhost:6006/landing".

(** The four ways a single-page script can end, read off the answers of
    the server: navigation refused; idle wait raising; screenshot raising;
    everything through.  [opts], [taking] and [path] are what tells
    [verify_landing_mobile] from [verify_landing]. *)
Definition landing_run (opts : context_options) (taking path : string)
    (sv : server) : completion unit * world :=
  let start :=
    (setup_log opts ++ [EPrint "Navigating to landing page..."])%list in
  match nav sv LANDING_URL 60000 with
  | Some e =>
      (Normal tt,
       {| log := (start ++
                  [EGoto 2 LANDING_URL 60000 (Some e);
                   EPrint ("Failed to navigate: " ++ str e);
                   EClose 0; EStop])%list;
          files := []; next := 3; location := [] |})
  | None =>
      let loaded :=
        (start ++ [EGoto 2 LANDING_URL 60000 None;
                   EPrint "Waiting for network idle..."])%list in
      match idle sv LANDING_URL None with
      | Some e =>
          (Raised e,
           {| log := (loaded ++
                      [EWait 2 "networkidle" None (Some e); EStop])%list;
              files := []; next := 3; location := [(2, LANDING_URL)] |})
      | None =>
          let settled :=
            (loaded ++ [EWait 2 "networkidle" None None; ESleep 3;
                        EPrint taking])%list in
          match shot sv LANDING_URL path with
          | Some e =>
              (Raised e,
               {| log := (settled ++
                          [EScreenshot 2 path true (Some e); EStop])%list;
                  files := []; next := 3; location := [(2, LANDING_URL)] |})
          | None =>
              (Normal tt,
               {| log := (settled ++
                          [EScreenshot 2 path true None;
                           EPrint ("Screenshot saved to " ++ path);
                           EClose 0; EStop])%list;
                  files := [path]; next := 3;
                  location := [(2, LANDING_URL)] |})
          end
      end
  end.

(** A log with one browser, one context opened in it with [opts], one page
    opened in that context, and every page call made on that page. *)
Definition one_session (opts : context_options) (l : list event) : Prop :=
  count is_launch l = 1 /\ count is_new_context l = 1 /\
  count is_new_page l = 1 /\
  (exists rest, l = (setup_log opts ++ rest)%list) /\
  forallb (on_page 2) l = true.

(** A single-page run meets no failure it has no handler for: either the
    navigation fails, which is caught, or the idle wait and the screenshot
    at [path] both go through. *)
Definition no_unguarded_failure (path : string) (sv : server) : Prop :=
  nav sv LANDING_URL 60000 <> None \/
  (idle sv LANDING_URL None = None /\ shot sv LANDING_URL path = None).

(** ** More readings of a log *)

(** The screenshot calls made, whether they went through or not: page,
    path and the [full_page] flag. *)
Fixpoint shots_attempted (l : list event) : list (handle * string * bool) :=
  match l with
  | [] => []
  | EScreenshot p path fp _ :: l' => (p, path, fp) :: shots_attempted l'
  | _ :: l' => shots_attempted l'
  end.

(** The lines printed, in order. *)
Fixpoint prints (l : list event) : list string :=
  match l with
  | [] => []
  | EPrint line :: l' => line :: prints l'
  | _ :: l' => prints l'
  end.

(** How many printed lines start with [start]. *)
Definition lines_with (start : string) (l : list event) : nat :=
  List.length (filter (String.prefix start) (prints l)).

Definition is_stop (e : event) : bool :=
  match e with EStop => true | _ => false end.

(** Once the browser was closed, nothing happens but leaving the
    Playwright scope. *)
Fixpoint quiet_after_close (l : list event) : bool :=
  match l with
  | [] => true
  | EClose _ :: l' => forallb is_stop l'
  | _ :: l' => quiet_after_close l'
  end.

(** The navigation to a route goes through. *)
Definition nav_ok (sv : server) (path : string) : bool :=
  match nav sv (BASE_URL ++ path) 60000 with None => true | Some _ => false end.

(** In a single-page script navigation, idle wait and screenshot at [path]
    all go through. *)
Definition landing_captured (path : string) (sv : server) : bool :=
  match nav sv LANDING_URL 60000, idle sv LANDING_URL None,
        shot sv LANDING_URL path with
  | None, None, None => true
  | _, _, _ => false
  end.

(** Running a script a second time, in the world the first run left. *)
Definition rerun (f : M unit) (sv : server) : completion unit * world :=
  f sv (final f sv).

(** ** Servers to run the scripts against *)

(** Everything answers. *)
Definition server_up : server :=
  {| nav := fun _ _ => None; idle := fun _ _ => None;
     shot := fun _ _ => None |}.

(** Nothing listens on the port. *)
Definition server_down : server :=
  {| nav := fun _ _ => Some (Error "net::ERR_CONNECTION_REFUSED");
     idle := fun _ _ => None; shot := fun _ _ => None |}.

(** Only [/login] cannot be reached. *)
Definition login_down : server :=
  {| nav := fun u _ =>
       if String.eqb u "http://localhost:6006/login"
       then Some (Error "net::ERR_CONNECTION_REFUSED") else None;
     idle := fun _ _ => None; shot := fun _ _ => None |}.

(** Pages load but keep the network busy. *)
Definition never_idle : server :=
  {| nav := fun _ _ => None;
     idle := fun _ _ => Some (TimeoutError "Timeout exceeded.");
     shot := fun _ _ => None |}.

(** Pages load and settle, but the screenshot cannot be written. *)
Definition disk_full : server :=
  {| nav := fun _ _ => None; idle := fun _ _ => None;
     shot := fun _ _ => Some (Error "ENOSPC: no space left on device") |}.

(** ** Facts on the string methods *)

Section StringFacts.

Import PyStr.

Lemma replace_length old new s :
  String.length (replace old new s) = String.length s.
Proof. induction s as [|c s IH]; simpl; congruence. Qed.

Lemma replace_get old new s n :
  String.get n (replace old new s) =
  option_map (fun c => if Ascii.eqb c old then new else c) (String.get n s).
Proof.
  revert n; induction s as [|c s IH]; intros [|n]; simpl; auto.
Qed.

Lemma replace_removes old new s :
  old <> new -> contains old (replace old new s) = false.
Proof.
  intros Hne; unfold contains.
  induction s as [|c s IH]; simpl; auto.
  rewrite IH, orb_false_r.
  destruct (Ascii.eqb_spec c old) as [->|Hc];
    apply Ascii.eqb_neq; congruence.
Qed.

Lemma mem_app c s t : mem c (s ++ t) = mem c s || mem c t.
Proof. induction s as [|d s IH]; simpl; auto. now rewrite IH, orb_assoc. Qed.

Lemma lstrip_split chars s :
  exists l, all_in chars l = true /\ s = l ++ lstrip chars s.
Proof.
  induction s as [|c s [l [Hl Hs]]]; simpl.
  - exists ""; auto.
  - destruct (mem c chars) eqn:Hc.
    + exists (String c l); simpl. rewrite Hc, Hl. split; auto. now f_equal.
    + exists ""; auto.
Qed.

Lemma rstrip_split chars s :
  exists r, all_in chars r = true /\ s = rstrip chars s ++ r.
Proof.
  induction s as [|c s [r [Hr Hs]]]; simpl.
  - exists ""; auto.
  - destruct (rstrip chars s) eqn:Hrs.
    + destruct (mem c chars) eqn:Hc.
      * exists (String c r); simpl. rewrite Hc, Hr. split; auto.
        simpl in Hs. now f_equal.
      * exists r; split; auto. simpl in *. now f_equal.
    + exists r; split; auto. simpl in *. now f_equal.
Qed.

Lemma lstrip_first chars s c :
  first_char (lstrip chars s) = Some c -> mem c chars = false.
Proof.
  induction s as [|d s IH]; simpl; [discriminate|].
  destruct (mem d chars) eqn:Hd; auto.
  simpl; intros [= <-]; auto.
Qed.

Lemma rstrip_last chars s c :
  last_char (rstrip chars s) = Some c -> mem c chars = false.
Proof.
  induction s as [|d s IH]; simpl; [discriminate|].
  destruct (rstrip chars s) as [|e r] eqn:Hrs.
  - destruct (mem d chars) eqn:Hd; simpl; [discriminate|].
    intros [= <-]; auto.
  - intros H; apply IH. exact H.
Qed.

Lemma rstrip_first chars s c :
  first_char (rstrip chars s) = Some c -> first_char s = Some c.
Proof.
  destruct s as [|d s]; simpl; auto.
  destruct (rstrip chars s); [destruct (mem d chars)|]; simpl; auto; discriminate.
Qed.

Lemma mem_lstrip c chars s : mem c (lstrip chars s) = true -> mem c s = true.
Proof.
  induction s as [|d s IH]; simpl; auto.
  destruct (mem d chars); simpl; auto.
  intros H; rewrite (IH H); apply orb_true_r.
Qed.

Lemma mem_rstrip c chars s : mem c (rstrip chars s) = true -> mem c s = true.
Proof.
  induction s as [|d s IH]; simpl; auto.
  destruct (rstrip chars s) as [|e r].
  - destruct (mem d chars); simpl; [discriminate|].
    rewrite orb_false_r; intros ->; auto.
  - remember (String e r) as t. simpl.
    destruct (Ascii.eqb c d); simpl; auto.
Qed.

Lemma mem_strip c chars s : mem c (strip chars s) = true -> mem c s = true.
Proof. intros H; apply mem_lstrip with chars, mem_rstrip with chars, H. Qed.

(** [strip] removes a run of [chars] on the left and one on the right, and
    what is left neither starts nor ends with a character of [chars]. *)
Lemma strip_spec chars s :
  (exists l r, all_in chars l = true /\ all_in chars r = true /\
               s = l ++ strip chars s ++ r) /\
  (forall c, first_char (strip chars s) = Some c -> mem c chars = false) /\
  (forall c, last_char (strip chars s) = Some c -> mem c chars = false).
Proof.
  unfold strip; split; [|split].
  - destruct (lstrip_split chars s) as [l [Hl Hs]].
    destruct (rstrip_split chars (lstrip chars s)) as [r [Hr Ht]].
    exists l, r; repeat split; auto. now rewrite <- Ht.
  - intros c H. apply rstrip_first in H. now apply lstrip_first in H.
  - intros c H. now apply rstrip_last in H.
Qed.

End StringFacts.

(** ** One turn of the loop, and the loop *)

Section MobileLoop.

Variable sv : server.

Lemma route_body_run page path w :
  exists w',
    route_body page path sv w = (Normal tt, w') /\
    log w' = (log w ++ route_log sv page path)%list /\
    files w' = (if captured sv path then add_shot (files w) path else files w) /\
    next w' = next w.
Proof.
  unfold route_body, route_log, captured, add_shot, try_except, bind, print,
    emit, goto, wait_for_load_state, screenshot, emit_event.
  destruct (nav sv (BASE_URL ++ path) 60000) as [e|] eqn:Hnav;
    cbn [log files next location url_at].
  - eexists; split; [reflexivity|]. cbn [log files next].
    rewrite <- !app_assoc. cbn [app]. auto.
  - rewrite Nat.eqb_refl.
    destruct (idle sv (BASE_URL ++ path) (Some 10000%Z)) as [e|] eqn:Hidle;
      cbn [log files next location url_at]; rewrite ?Nat.eqb_refl;
      destruct (shot sv (BASE_URL ++ path) (screenshot_path path))
        as [e'|] eqn:Hshot;
      cbn [log files next location];
      (eexists; split; [reflexivity|]); cbn [log files next];
      rewrite <- !app_assoc; cbn [app]; auto.
Qed.

Lemma for_each_route_run page pages w :
  exists w',
    for_each pages (route_body page) sv w = (Normal tt, w') /\
    log w' = (log w ++ flat_map (route_log sv page) pages)%list /\
    files w' = fold_left add_shot (filter (captured sv) pages) (files w) /\
    next w' = next w.
Proof.
  revert w; induction pages as [|path pages IH]; intros w.
  - exists w; cbn. rewrite app_nil_r. auto.
  - destruct (route_body_run page path w) as [w1 [Hrun [Hlog [Hfiles Hnext]]]].
    destruct (IH w1) as [w2 [Hrun2 [Hlog2 [Hfiles2 Hnext2]]]].
    exists w2. cbn [for_each]. unfold bind at 1. rewrite Hrun, Hrun2.
    split; [reflexivity|]. cbn [flat_map filter].
    rewrite Hlog2, Hlog, <- app_assoc, Hfiles2, Hfiles, Hnext2, Hnext.
    destruct (captured sv path); auto.
Qed.

End MobileLoop.

(** ** Lists of paths and of events *)

Section ListFacts.

Lemma existsb_eqb_In x (l : list string) :
  existsb (String.eqb x) l = true <-> In x l.
Proof.
  rewrite existsb_exists; split.
  - intros [y [Hy Heq]]. apply String.eqb_eq in Heq. now subst.
  - intros H; exists x; split; auto. apply String.eqb_refl.
Qed.

Lemma nodupb_NoDup l : nodupb l = true -> NoDup l.
Proof.
  induction l as [|x l IH]; cbn; intros H; constructor.
  - apply andb_prop in H as [H _]. intros Hin.
    apply existsb_eqb_In in Hin. rewrite Hin in H. discriminate.
  - apply IH. now apply andb_prop in H as [_ H].
Qed.

Lemma NoDup_map_inj_on {A B} (f : A -> B) l x y :
  NoDup (map f l) -> In x l -> In y l -> f x = f y -> x = y.
Proof.
  induction l as [|a l IH]; cbn; [tauto|].
  intros Hnd [->|Hx] [->|Hy] Heq; auto; inversion Hnd as [|? ? Hnin Hnd']; subst.
  - exfalso; apply Hnin. rewrite Heq. now apply in_map.
  - exfalso; apply Hnin. rewrite <- Heq. now apply in_map.
  - now apply IH.
Qed.

Lemma NoDup_map_filter {A B} (f : A -> B) (g : A -> bool) l :
  NoDup (map f l) -> NoDup (map f (filter g l)).
Proof.
  induction l as [|a l IH]; cbn; auto.
  intros Hnd; inversion Hnd as [|? ? Hnin Hnd']; subst.
  destruct (g a); cbn; auto.
  constructor; auto.
  intros Hin; apply Hnin.
  apply in_map_iff in Hin as [x [Hx Hin]].
  apply filter_In in Hin as [Hin _].
  apply in_map_iff; eauto.
Qed.

Lemma add_file_fresh path fs :
  ~ In path fs -> add_file path fs = (fs ++ [path])%list.
Proof.
  intros Hnin; unfold add_file.
  destruct (existsb (String.eqb path) fs) eqn:H; auto.
  apply existsb_eqb_In in H. contradiction.
Qed.

Lemma add_file_present path fs : In path fs -> add_file path fs = fs.
Proof.
  intros Hin; unfold add_file.
  now rewrite (proj2 (existsb_eqb_In path fs) Hin).
Qed.

Lemma fold_add_shot_NoDup l fs :
  NoDup (fs ++ map screenshot_path l) ->
  fold_left add_shot l fs = (fs ++ map screenshot_path l)%list.
Proof.
  revert fs; induction l as [|p l IH]; intros fs Hnd; cbn.
  - now rewrite app_nil_r.
  - unfold add_shot at 2. rewrite add_file_fresh.
    + rewrite IH; rewrite <- app_assoc; auto.
    + apply NoDup_remove_2 in Hnd. intros Hin; apply Hnd.
      apply in_or_app; auto.
Qed.

Lemma count_app f l1 l2 : count f (l1 ++ l2) = count f l1 + count f l2.
Proof. unfold count. now rewrite filter_app, length_app. Qed.

Lemma count_flat_map_0 {A} f (g : A -> list event) l :
  (forall x, count f (g x) = 0) -> count f (flat_map g l) = 0.
Proof.
  intros H; induction l as [|x l IH]; cbn [flat_map]; auto.
  now rewrite count_app, H, IH.
Qed.

Lemma gotos_app l1 l2 : gotos (l1 ++ l2) = (gotos l1 ++ gotos l2)%list.
Proof.
  induction l1 as [|e l1 IH]; cbn; auto.
  destruct e; cbn; auto. now rewrite IH.
Qed.

Lemma shots_taken_app l1 l2 :
  shots_taken (l1 ++ l2) = (shots_taken l1 ++ shots_taken l2)%list.
Proof.
  induction l1 as [|e l1 IH]; cbn; auto.
  destruct e as [| | | | | | | | |? ? ? [?|]|]; cbn; auto. now rewrite IH.
Qed.

Lemma contexts_requested_app l1 l2 :
  contexts_requested (l1 ++ l2) =
  (contexts_requested l1 ++ contexts_requested l2)%list.
Proof.
  induction l1 as [|e l1 IH]; cbn; auto.
  destruct e; cbn; auto. now rewrite IH.
Qed.

Lemma append_inj_l (s t u : string) : s ++ t = s ++ u -> t = u.
Proof. induction s as [|c s IH]; cbn; auto. intros [= H]; auto. Qed.

End ListFacts.

(** ** What a log of the loop contains *)

Section RouteLog.

Variables (sv : server) (page : handle).

Lemma gotos_route_log path :
  gotos (route_log sv page path) = [(page, BASE_URL ++ path, 60000%Z)].
Proof.
  unfold route_log. cbn [gotos].
  destruct (nav sv (BASE_URL ++ path) 60000); cbn [gotos]; auto.
  f_equal. rewrite gotos_app.
  destruct (idle sv (BASE_URL ++ path) (Some 10000%Z)),
    (shot sv (BASE_URL ++ path) (screenshot_path path)); reflexivity.
Qed.

Lemma gotos_loop pages :
  gotos (flat_map (route_log sv page) pages) =
  map (fun path => (page, BASE_URL ++ path, 60000%Z)) pages.
Proof.
  induction pages as [|path pages IH]; cbn [flat_map map]; auto.
  now rewrite gotos_app, gotos_route_log, IH.
Qed.

Lemma shots_taken_route_log path :
  shots_taken (route_log sv page path) =
  if captured sv path then [screenshot_path path] else [].
Proof.
  unfold route_log, captured. cbn [shots_taken].
  destruct (nav sv (BASE_URL ++ path) 60000); cbn [shots_taken]; auto.
  rewrite shots_taken_app.
  destruct (idle sv (BASE_URL ++ path) (Some 10000%Z)),
    (shot sv (BASE_URL ++ path) (screenshot_path path)); reflexivity.
Qed.

Lemma shots_taken_loop pages :
  shots_taken (flat_map (route_log sv page) pages) =
  map screenshot_path (filter (captured sv) pages).
Proof.
  induction pages as [|path pages IH]; cbn [flat_map map filter]; auto.
  rewrite shots_taken_app, shots_taken_route_log, IH.
  destruct (captured sv path); reflexivity.
Qed.

Lemma route_log_counts path :
  count is_close (route_log sv page path) = 0 /\
  count is_launch (route_log sv page path) = 0 /\
  count is_new_context (route_log sv page path) = 0 /\
  count is_new_page (route_log sv page path) = 0 /\
  contexts_requested (route_log sv page path) = [] /\
  forallb (on_page page) (route_log sv page path) = true.
Proof.
  unfold route_log, count, on_page.
  destruct (nav sv (BASE_URL ++ path) 60000),
    (idle sv (BASE_URL ++ path) (Some 10000%Z)),
    (shot sv (BASE_URL ++ path) (screenshot_path path));
    cbn [filter is_close is_launch is_new_context is_new_page app List.length
         contexts_requested forallb page_of andb];
    rewrite ?Nat.eqb_refl; repeat split.
Qed.

Lemma loop_on_page pages :
  forallb (on_page page) (flat_map (route_log sv page) pages) = true.
Proof.
  induction pages as [|path pages IH]; cbn [flat_map]; auto.
  rewrite forallb_app, IH.
  destruct (route_log_counts path) as [_ [_ [_ [_ [_ ->]]]]]. reflexivity.
Qed.

Lemma loop_contexts pages :
  contexts_requested (flat_map (route_log sv page) pages) = [].
Proof.
  induction pages as [|path pages IH]; cbn [flat_map]; auto.
  rewrite contexts_requested_app, IH.
  now rewrite (proj1 (proj2 (proj2 (proj2 (proj2 (route_log_counts path)))))).
Qed.

End RouteLog.

(** ** The whole run of [verify_mobile.py] *)

Lemma verify_mobile_pages_over_run sv pages :
  exists w,
    run (verify_mobile_pages_over pages) sv = (Normal tt, w) /\
    log w = (setup_log mobile_options ++ flat_map (route_log sv 2) pages ++
             [EClose 0; EStop])%list /\
    files w = fold_left add_shot (filter (captured sv) pages) [].
Proof.
  unfold run, verify_mobile_pages_over, def, with_sync_playwright.
  unfold bind at 1 2 3. unfold launch, new_context, new_page, init, emit_event.
  cbn [log files next location app].
  match goal with
  | |- context [for_each pages (route_body 2) ;; _] =>
      unfold bind at 1
  end.
  match goal with
  | |- context [for_each pages (route_body 2) sv ?w0] =>
      destruct (for_each_route_run sv 2 pages w0) as [w1 [Hrun [Hlog [Hfiles _]]]]
  end.
  rewrite Hrun. unfold close, emit, emit_event.
  eexists; split; [reflexivity|]. cbn [log files].
  rewrite Hlog, Hfiles. cbn [log files]. split; auto.
  unfold setup_log. rewrite <- !app_assoc. reflexivity.
Qed.

(** ** The whole run of the single-page scripts *)

Ltac run_script :=
  unfold run, def, with_sync_playwright, bind, try_except, launch,
    new_context, new_page, print, sleep, close, emit, goto,
    wait_for_load_state, screenshot, py_return, emit_event, init;
  cbn [log files next location url_at Nat.eqb app add_file existsb].

Lemma verify_landing_run sv :
  run verify_landing sv =
  landing_run desktop_options "Taking screenshot..."
    "verification_landing.png" sv.
Proof.
  unfold verify_landing, landing_run, LANDING_URL, setup_log. run_script.
  destruct (nav sv "http://localhost:6006/landing" 60000); [reflexivity|].
  cbn [log files next location url_at Nat.eqb].
  destruct (idle sv "http://localhost:6006/landing" None); [reflexivity|].
  cbn [log files next location url_at Nat.eqb].
  destruct (shot sv "http://localhost:6006/landing" "verification_landing.png");
    reflexivity.
Qed.

Lemma verify_landing_mobile_run sv :
  run verify_landing_mobile sv =
  landing_run landing_mobile_options "Taking mobile screenshot..."
    "verification_landing_mobile.png" sv.
Proof.
  unfold verify_landing_mobile, landing_run, LANDING_URL, setup_log. run_script.
  destruct (nav sv "http://localhost:6006/landing" 60000); [reflexivity|].
  cbn [log files next location url_at Nat.eqb].
  destruct (idle sv "http://localhost:6006/landing" None); [reflexivity|].
  cbn [log files next location url_at Nat.eqb].
  destruct (shot sv "http://localhost:6006/landing"
              "verification_landing_mobile.png"); reflexivity.
Qed.

(** ** File names *)

Section FileNames.

Import PyStr.

Lemma strip_no_edge c s :
  startswith c (strip (String c "") s) = false /\
  endswith c (strip (String c "") s) = false.
Proof.
  destruct (strip_spec (String c "") s) as [_ [Hf Hl]].
  unfold startswith, endswith; split.
  - destruct (first_char (strip (String c "") s)) as [d|] eqn:E; auto.
    specialize (Hf d eq_refl). cbn in Hf. now rewrite orb_false_r in Hf.
  - destruct (last_char (strip (String c "") s)) as [d|] eqn:E; auto.
    specialize (Hl d eq_refl). cbn in Hl. now rewrite orb_false_r in Hl.
Qed.

(** Whatever the route, its file name is not empty. *)
Lemma filename_nonempty path : is_empty (filename path) = false.
Proof.
  unfold filename.
  destruct (is_empty (strip "_" (replace "/" "_" path))) eqn:E; auto.
Qed.

(** Whatever the route, its file name holds no slash. *)
Lemma filename_no_slash path : contains "/" (filename path) = false.
Proof.
  unfold filename.
  destruct (is_empty (strip "_" (replace "/" "_" path))); [reflexivity|].
  destruct (contains "/" (strip "_" (replace "/" "_" path))) eqn:E; auto.
  apply mem_strip in E.
  pose proof (replace_removes "/" "_" path) as H. unfold contains in H.
  rewrite H in E; [discriminate|]. intros [=].
Qed.

Lemma PAGES_filenames_NoDup : NoDup (map filename PAGES).
Proof. apply nodupb_NoDup. reflexivity. Qed.

Lemma PAGES_paths_NoDup : NoDup (map screenshot_path PAGES).
Proof. apply nodupb_NoDup. reflexivity. Qed.

Lemma PAGES_NoDup : NoDup PAGES.
Proof. apply nodupb_NoDup. reflexivity. Qed.

(** Off the configured list the naming is not injective. *)
Lemma filename_collision :
  filename "/a/b" = filename "/a_b" /\ filename "/" = filename "/root".
Proof. split; reflexivity. Qed.

End FileNames.

(** ** The run of [verify_mobile.py] and the files it leaves *)

Section MobileRun.

Variables (sv : server) (pages : list string).

Let w := final (verify_mobile_pages_over pages) sv.

Lemma mobile_returns : fst (run (verify_mobile_pages_over pages) sv) = Normal tt.
Proof.
  destruct (verify_mobile_pages_over_run sv pages) as [w' [H _]].
  now rewrite H.
Qed.

Lemma mobile_log :
  log w = (setup_log mobile_options ++ flat_map (route_log sv 2) pages ++
           [EClose 0; EStop])%list.
Proof.
  destruct (verify_mobile_pages_over_run sv pages) as [w' [H [Hlog _]]].
  unfold w, final. now rewrite H.
Qed.

Lemma mobile_files :
  files w = fold_left add_shot (filter (captured sv) pages) [].
Proof.
  destruct (verify_mobile_pages_over_run sv pages) as [w' [H [_ Hfiles]]].
  unfold w, final. now rewrite H.
Qed.

Lemma mobile_gotos :
  gotos (log w) = map (fun path => (2, BASE_URL ++ path, 60000%Z)) pages.
Proof.
  rewrite mobile_log, !gotos_app, gotos_loop. cbn. now rewrite app_nil_r.
Qed.

Lemma mobile_shots_taken :
  shots_taken (log w) = map screenshot_path (filter (captured sv) pages).
Proof.
  rewrite mobile_log, !shots_taken_app, shots_taken_loop. cbn.
  now rewrite app_nil_r.
Qed.

Lemma mobile_closes_last : closes_last 0 (log w).
Proof.
  exists (setup_log mobile_options ++ flat_map (route_log sv 2) pages)%list.
  split.
  - now rewrite mobile_log, <- app_assoc.
  - rewrite count_app, count_flat_map_0; [reflexivity|].
    intros path. apply route_log_counts.
Qed.

Lemma mobile_exit_status : exit_status (verify_mobile_pages_over pages) sv = 0%Z.
Proof. unfold exit_status. now rewrite mobile_returns. Qed.

End MobileRun.

(** ** File naming of the multi-route runner *)

(** C3: the screenshot file name of a route is a function of the route
    alone: every slash becomes an underscore and nothing else changes,
    the underscores at both ends are stripped, and an empty result becomes
    "root".  The file is written under "verification/mobile/" with the
    extension ".png".  Route "/settings/general" gives
    "verification/mobile/settings_general.png", route "/" gives
    "verification/mobile/root.png", and the screenshots a run takes are
    those of the captured routes, at these paths. *)
Theorem screenshot_name_derivation :
  (forall path,
     let replaced := PyStr.replace "/" "_" path in
     let stripped := PyStr.strip "_" replaced in
     String.length replaced = String.length path /\
     (forall n, String.get n replaced =
                option_map (fun c => if Ascii.eqb c "/" then "_"%char else c)
                  (String.get n path)) /\
     (exists l r, PyStr.all_in "_" l = true /\ PyStr.all_in "_" r = true /\
                  replaced = l ++ stripped ++ r) /\
     PyStr.startswith "_" stripped = false /\
     PyStr.endswith "_" stripped = false /\
     filename path = (if PyStr.is_empty stripped then "root" else stripped) /\
     screenshot_path path = "verification/mobile/" ++ filename path ++ ".png") /\
  filename "/settings/general" = "settings_general" /\
  screenshot_path "/settings/general" =
    "verification/mobile/settings_general.png" /\
  filename "/" = "root" /\
  screenshot_path "/" = "verification/mobile/root.png" /\
  (forall sv,
     shots_taken (log (final verify_mobile_pages sv)) =
     map screenshot_path (filter (captured sv) PAGES)).
Proof.
  split; [|repeat split].
  - intros path replaced stripped.
    split; [apply replace_length|].
    split; [intros n; apply replace_get|].
    split; [apply (strip_spec "_" replaced)|].
    split; [apply (strip_no_edge "_" replaced)|].
    split; [apply (strip_no_edge "_" replaced)|].
    split; reflexivity.
  - intros sv. apply mobile_shots_taken.
Qed.

(** C10: each of the ten configured routes has a file name that is not
    empty and holds no slash, so its screenshot lies directly inside
    "verification/mobile/"; and two configured routes with the same file
    name, or the same file path, are the same route. *)
Theorem configured_filenames_flat_and_distinct :
  forall p q,
    In p PAGES -> In q PAGES ->
    filename p <> "" /\
    PyStr.contains "/" (filename p) = false /\
    screenshot_path p = "verification/mobile/" ++ filename p ++ ".png" /\
    (filename p = filename q -> p = q) /\
    (screenshot_path p = screenshot_path q -> p = q).
Proof.
  intros p q Hp Hq.
  split.
  { pose proof (filename_nonempty p) as H. intros E. rewrite E in H.
    discriminate. }
  split; [apply filename_no_slash|].
  split; [reflexivity|].
  split.
  - apply (NoDup_map_inj_on filename PAGES); auto using PAGES_filenames_NoDup.
  - apply (NoDup_map_inj_on screenshot_path PAGES);
      auto using PAGES_paths_NoDup.
Qed.

Lemma configured_filenames_witness :
  filename "/login" <> "" /\
  PyStr.contains "/" (filename "/login") = false /\
  screenshot_path "/login" = "verification/mobile/" ++ filename "/login" ++ ".png" /\
  (filename "/login" = filename "/settings/general" ->
   "/login" = "/settings/general") /\
  (screenshot_path "/login" = screenshot_path "/settings/general" ->
   "/login" = "/settings/general").
Proof.
  apply (configured_filenames_flat_and_distinct "/login" "/settings/general");
    simpl; tauto.
Defined.

(** ** What every run of a single-page script has in its log *)

Section LandingRun.

Variables (opts : context_options) (taking path : string) (sv : server).

Let w := snd (landing_run opts taking path sv).

Ltac by_cases :=
  unfold w, landing_run;
  destruct (nav sv LANDING_URL 60000), (idle sv LANDING_URL None),
    (shot sv LANDING_URL path); cbn; auto.

Lemma landing_gotos : gotos (log w) = [(2, LANDING_URL, 60000%Z)].
Proof. by_cases. Qed.

Lemma landing_contexts : contexts_requested (log w) = [opts].
Proof. by_cases. Qed.

Lemma landing_handles :
  count is_launch (log w) = 1 /\ count is_new_context (log w) = 1 /\
  count is_new_page (log w) = 1 /\ forallb (on_page 2) (log w) = true /\
  exists rest, log w = (setup_log opts ++ rest)%list.
Proof. by_cases; repeat split; eexists; reflexivity. Qed.

Lemma landing_scope_left : exists l, log w = (l ++ [EStop])%list.
Proof.
  unfold w, landing_run;
    destruct (nav sv LANDING_URL 60000), (idle sv LANDING_URL None),
      (shot sv LANDING_URL path); cbn [snd log setup_log app];
    match goal with
    | |- exists l, ?L = _ => exists (removelast L); reflexivity
    end.
Qed.

End LandingRun.

(** ** Browser, context and page handles *)

Lemma mobile_one_session sv pages :
  one_session mobile_options (log (final (verify_mobile_pages_over pages) sv)).
Proof.
  rewrite mobile_log. unfold one_session.
  rewrite !count_app, !count_flat_map_0 by (intros x; apply route_log_counts).
  repeat split.
  - eexists; reflexivity.
  - rewrite !forallb_app, loop_on_page. reflexivity.
Qed.

(** C5, as the code has it: each script creates exactly one browser, one
    browsing context in it and one page in that context, once, before any
    navigation; in the multi-route runner that one page is used for all
    ten routes: every navigation, idle wait and screenshot is made on it. *)
Theorem one_browser_context_page_per_run :
  forall sv,
    one_session mobile_options (log (final verify_mobile_pages sv)) /\
    List.length (gotos (log (final verify_mobile_pages sv))) = 10 /\
    one_session desktop_options (log (final verify_landing sv)) /\
    one_session landing_mobile_options (log (final verify_landing_mobile sv)).
Proof.
  intros sv. split; [apply mobile_one_session|].
  split; [unfold verify_mobile_pages; now rewrite mobile_gotos|].
  unfold final. rewrite verify_landing_run, verify_landing_mobile_run.
  split; unfold one_session.
  - pose proof (landing_handles desktop_options "Taking screenshot..."
                  "verification_landing.png" sv). tauto.
  - pose proof (landing_handles landing_mobile_options
                  "Taking mobile screenshot..."
                  "verification_landing_mobile.png" sv). tauto.
Qed.

(** C5, as stated, fails: with every route reachable the multi-route
    runner opens one page, not one per route. *)
Lemma no_new_page_per_route :
  count is_new_page (log (final verify_mobile_pages server_up)) = 1 /\
  List.length PAGES = 10 /\
  count is_new_page (log (final verify_mobile_pages server_up)) <>
  List.length PAGES.
Proof. vm_compute. repeat split. discriminate. Qed.

(** ** Context configurations *)

(** C8: the mobile runner asks for a context with viewport 390x844, device
    scale factor 3 and the mobile and touch flags set; the desktop script
    asks for viewport 1440x3000 and passes no emulation argument; the two
    requests differ.  ([verify_landing_mobile] asks for the 390x844
    viewport, which differs from the desktop request as well.) *)
Theorem context_configurations :
  forall sv,
    contexts_requested (log (final verify_mobile_pages sv)) = [mobile_options] /\
    viewport mobile_options = {| width := 390; height := 844 |} /\
    device_scale_factor mobile_options = Some 3%Z /\
    is_mobile mobile_options = Some true /\
    has_touch mobile_options = Some true /\
    contexts_requested (log (final verify_landing sv)) = [desktop_options] /\
    viewport desktop_options = {| width := 1440; height := 3000 |} /\
    user_agent desktop_options = None /\
    device_scale_factor desktop_options = None /\
    is_mobile desktop_options = None /\
    has_touch desktop_options = None /\
    contexts_requested (log (final verify_mobile_pages sv)) <>
    contexts_requested (log (final verify_landing sv)) /\
    contexts_requested (log (final verify_landing_mobile sv)) =
      [landing_mobile_options] /\
    viewport landing_mobile_options = {| width := 390; height := 844 |} /\
    contexts_requested (log (final verify_landing_mobile sv)) <>
    contexts_requested (log (final verify_landing sv)).
Proof.
  intros sv.
  assert (Hm : contexts_requested (log (final verify_mobile_pages sv)) =
               [mobile_options]).
  { unfold verify_mobile_pages. rewrite mobile_log.
    rewrite !contexts_requested_app, loop_contexts. reflexivity. }
  assert (Hd : contexts_requested (log (final verify_landing sv)) =
               [desktop_options]).
  { unfold final. rewrite verify_landing_run. apply landing_contexts. }
  assert (Hl : contexts_requested (log (final verify_landing_mobile sv)) =
               [landing_mobile_options]).
  { unfold final. rewrite verify_landing_mobile_run. apply landing_contexts. }
  rewrite Hm, Hd, Hl.
  repeat split; intros [=].
Qed.

(** The single-page mobile script passes the viewport and nothing else. *)
Lemma landing_mobile_no_emulation :
  user_agent landing_mobile_options = None /\
  device_scale_factor landing_mobile_options = None /\
  is_mobile landing_mobile_options = None /\
  has_touch landing_mobile_options = None.
Proof. repeat split. Qed.

(** ** Navigation targets *)

(** C9: every navigation is to the base address "http://localhost:6006"
    followed by a path, with a timeout of 60000 ms.  The multi-route
    runner navigates to its ten paths, in the order of the list, once
    each, whatever the routes answer; each single-page script navigates
    once, to "/landing". *)
Theorem navigation_targets :
  forall sv,
    BASE_URL = "http://localhost:6006" /\
    PAGES = [ "/"; "/landing"; "/docs"; "/hub"; "/login"; "/onboarding";
              "/observability"; "/tasks"; "/vibers"; "/settings/general" ] /\
    List.length PAGES = 10 /\
    NoDup PAGES /\
    gotos (log (final verify_mobile_pages sv)) =
      map (fun path => (2, BASE_URL ++ path, 60000%Z)) PAGES /\
    gotos (log (final verify_landing sv)) =
      [(2, BASE_URL ++ "/landing", 60000%Z)] /\
    gotos (log (final verify_landing_mobile sv)) =
      [(2, BASE_URL ++ "/landing", 60000%Z)].
Proof.
  intros sv.
  split; [reflexivity|]. split; [reflexivity|]. split; [reflexivity|].
  split; [apply PAGES_NoDup|].
  split; [apply mobile_gotos|].
  unfold final. rewrite verify_landing_run, verify_landing_mobile_run.
  split; apply landing_gotos.
Qed.

(** ** Routes that fail and routes that do not *)

Section OneRouteDown.

Lemma length_filter_neqb (l : list string) bad :
  NoDup l -> In bad l ->
  List.length (filter (fun p => negb (String.eqb p bad)) l) = List.length l - 1.
Proof.
  induction l as [|x l IH]; cbn [In]; [tauto|].
  intros Hnd Hin. inversion Hnd as [|? ? Hnin Hnd']; subst.
  cbn [filter List.length].
  destruct (String.eqb_spec x bad) as [->|Hne]; cbn [negb].
  - rewrite Nat.sub_succ, Nat.sub_0_r. f_equal.
    apply forallb_filter_id, forallb_forall. intros y Hy.
    destruct (String.eqb_spec y bad) as [->|]; [contradiction|reflexivity].
  - destruct Hin as [->|Hin]; [contradiction|].
    cbn [List.length]. rewrite IH by assumption.
    destruct l; [contradiction|cbn; lia].
Qed.

Lemma captured_all_but sv pages bad e :
  nav sv (BASE_URL ++ bad) 60000 = Some e ->
  (forall p, In p pages -> p <> bad -> captured sv p = true) ->
  filter (captured sv) pages =
  filter (fun p => negb (String.eqb p bad)) pages.
Proof.
  intros Hnav Hok. apply filter_ext_in. intros p Hp.
  destruct (String.eqb_spec p bad) as [->|Hne]; cbn [negb].
  - unfold captured. now rewrite Hnav.
  - now apply Hok.
Qed.

Lemma flat_map_In_split {A B} (g : A -> list B) l x :
  In x l -> exists l1 l2, flat_map g l = (l1 ++ g x ++ l2)%list.
Proof.
  intros Hin. apply in_split in Hin as [p1 [p2 ->]].
  exists (flat_map g p1), (flat_map g p2).
  now rewrite flat_map_app.
Qed.

Lemma In_fold_add_shot path l fs :
  In path l -> In (screenshot_path path) (fold_left add_shot l fs).
Proof.
  assert (Hmono : forall l fs x, In x fs -> In x (fold_left add_shot l fs)).
  { clear. induction l as [|p l IH]; cbn; auto.
    intros fs x Hx. apply IH. unfold add_shot, add_file.
    destruct (existsb _ fs); auto. apply in_or_app; auto. }
  revert fs; induction l as [|p l IH]; cbn [In fold_left]; [tauto|].
  intros fs [->|Hin]; auto.
  apply Hmono. unfold add_shot, add_file.
  destruct (existsb (String.eqb (screenshot_path path)) fs) eqn:E.
  - now apply existsb_eqb_In.
  - apply in_or_app; right; now left.
Qed.

End OneRouteDown.

(** C1: in the multi-route runner a route that fails does not stop the
    run.  Whatever the routes answer, the run returns, every route of the
    list is navigated to in order, and the browser is closed after the
    loop.  When navigation to one route raises and the others go through,
    the failure is logged and exactly the other routes leave a screenshot
    file: one file less than there are routes, nine for the ten configured
    routes. *)
Theorem failed_route_does_not_stop_the_run :
  forall sv pages,
    let w := final (verify_mobile_pages_over pages) sv in
    (fst (run (verify_mobile_pages_over pages) sv) = Normal tt /\
     gotos (log w) = map (fun p => (2, BASE_URL ++ p, 60000%Z)) pages /\
     closes_last 0 (log w)) /\
    (forall bad e,
       In bad pages ->
       NoDup (map screenshot_path pages) ->
       nav sv (BASE_URL ++ bad) 60000 = Some e ->
       (forall p, In p pages -> p <> bad -> captured sv p = true) ->
       let others := filter (fun p => negb (String.eqb p bad)) pages in
       In (EPrint ("Error testing " ++ bad ++ ": " ++ str e)) (log w) /\
       shots_taken (log w) = map screenshot_path others /\
       files w = map screenshot_path others /\
       NoDup (files w) /\
       List.length (files w) = List.length pages - 1 /\
       (pages = PAGES -> List.length (files w) = 9)).
Proof.
  intros sv pages w. split.
  - split; [apply mobile_returns|].
    split; [apply mobile_gotos | apply mobile_closes_last].
  - intros bad e Hin Hnd Hnav Hok others.
    assert (Hfiles : files w = map screenshot_path others).
    { unfold w. rewrite mobile_files, (captured_all_but sv pages bad e Hnav Hok).
      apply fold_add_shot_NoDup. cbn [app].
      now apply NoDup_map_filter. }
    assert (Hlen : List.length (files w) = List.length pages - 1).
    { rewrite Hfiles, length_map. apply length_filter_neqb; auto.
      now apply NoDup_map_inv in Hnd. }
    split.
    { unfold w. rewrite mobile_log.
      apply in_or_app; right. apply in_or_app; left.
      apply in_flat_map. exists bad; split; auto.
      unfold route_log. rewrite Hnav. cbn; auto. }
    split.
    { unfold w. rewrite mobile_shots_taken.
      now rewrite (captured_all_but sv pages bad e Hnav Hok). }
    split; [exact Hfiles|].
    split.
    { rewrite Hfiles. now apply NoDup_map_filter. }
    split; [exact Hlen|].
    intros ->. rewrite Hlen. reflexivity.
Qed.

Lemma login_down_witness :
  (fst (run (verify_mobile_pages_over PAGES) login_down) = Normal tt /\
   closes_last 0 (log (final (verify_mobile_pages_over PAGES) login_down))) /\
  files (final (verify_mobile_pages_over PAGES) login_down) =
    [ "verification/mobile/root.png"; "verification/mobile/landing.png";
      "verification/mobile/docs.png"; "verification/mobile/hub.png";
      "verification/mobile/onboarding.png";
      "verification/mobile/observability.png";
      "verification/mobile/tasks.png"; "verification/mobile/vibers.png";
      "verification/mobile/settings_general.png" ] /\
  List.length (files (final (verify_mobile_pages_over PAGES) login_down)) = 9.
Proof.
  destruct (failed_route_does_not_stop_the_run login_down PAGES)
    as [[Hret [_ Hclose]] Hdown].
  split; [split; assumption|].
  destruct (Hdown "/login" (Error "net::ERR_CONNECTION_REFUSED"))
    as [_ [_ [Hfiles [_ [_ Hnine]]]]].
  - simpl; tauto.
  - apply nodupb_NoDup; reflexivity.
  - reflexivity.
  - intros p Hp Hne. simpl in Hp.
    repeat (destruct Hp as [<-|Hp]; [try reflexivity; now contradiction Hne|]).
    contradiction.
  - split; [exact Hfiles | exact (Hnine eq_refl)].
Defined.

(** ** The idle wait *)

(** C2, as the code has it: in the multi-route runner an idle wait that
    raises never stops the run.  For a route whose navigation went
    through, the exception is caught, the line "Network idle timeout for
    <path>, proceeding..." is printed and the next call is the screenshot
    of that route; when the screenshot goes through, its file is on disk
    at the end.  The run returns. *)
Theorem idle_timeout_proceeds_to_screenshot :
  forall sv pages path e,
    In path pages ->
    nav sv (BASE_URL ++ path) 60000 = None ->
    idle sv (BASE_URL ++ path) (Some 10000%Z) = Some e ->
    let w := final (verify_mobile_pages_over pages) sv in
    let outcome := shot sv (BASE_URL ++ path) (screenshot_path path) in
    fst (run (verify_mobile_pages_over pages) sv) = Normal tt /\
    (exists before after,
       log w =
       (before ++
        [EGoto 2 (BASE_URL ++ path) 60000 None;
         EWait 2 "networkidle" (Some 10000%Z) (Some e);
         EPrint ("Network idle timeout for " ++ path ++ ", proceeding...");
         EScreenshot 2 (screenshot_path path) true outcome] ++ after)%list) /\
    (outcome = None ->
     In (screenshot_path path) (shots_taken (log w)) /\
     In (screenshot_path path) (files w)).
Proof.
  intros sv pages path e Hin Hnav Hidle w outcome.
  split; [apply mobile_returns|]. split.
  - destruct (flat_map_In_split (route_log sv 2) pages path Hin)
      as [l1 [l2 Hsplit]].
    unfold w. rewrite mobile_log, Hsplit.
    unfold route_log. rewrite Hnav, Hidle. fold outcome.
    exists (setup_log mobile_options ++ l1 ++
            [EPrint ("Testing " ++ (BASE_URL ++ path) ++ "...")])%list.
    destruct outcome as [e'|].
    + exists ([EPrint ("Error testing " ++ path ++ ": " ++ str e')] ++ l2 ++
              [EClose 0; EStop])%list.
      rewrite <- !app_assoc. reflexivity.
    + exists ([EPrint ("Saved screenshot to " ++ screenshot_path path)] ++ l2 ++
              [EClose 0; EStop])%list.
      rewrite <- !app_assoc. reflexivity.
  - intros Hshot.
    assert (Hcap : In path (filter (captured sv) pages)).
    { apply filter_In; split; auto. unfold captured. fold outcome.
      now rewrite Hnav, Hshot. }
    split.
    + unfold w. rewrite mobile_shots_taken. now apply in_map.
    + unfold w. rewrite mobile_files. now apply In_fold_add_shot.
Qed.

Lemma idle_timeout_witness :
  fst (run (verify_mobile_pages_over PAGES) never_idle) = Normal tt /\
  In "verification/mobile/docs.png"
     (files (final (verify_mobile_pages_over PAGES) never_idle)).
Proof.
  destruct (idle_timeout_proceeds_to_screenshot never_idle PAGES "/docs"
              (TimeoutError "Timeout exceeded."))
    as [Hret [_ Hfile]].
  - simpl; tauto.
  - reflexivity.
  - reflexivity.
  - split; [exact Hret | exact (proj2 (Hfile eq_refl))].
Defined.

(** C2, as stated, fails in the single-page scripts: their idle wait is
    not inside a [try], so when it raises the exception leaves the routine
    and no screenshot is taken. *)
Lemma landing_idle_timeout_aborts :
  idle never_idle LANDING_URL None = Some (TimeoutError "Timeout exceeded.") /\
  fst (run verify_landing never_idle) =
    Raised (TimeoutError "Timeout exceeded.") /\
  count is_screenshot (log (final verify_landing never_idle)) = 0 /\
  files (final verify_landing never_idle) = [] /\
  fst (run verify_landing_mobile never_idle) =
    Raised (TimeoutError "Timeout exceeded.") /\
  count is_screenshot (log (final verify_landing_mobile never_idle)) = 0 /\
  files (final verify_landing_mobile never_idle) = [].
Proof. repeat split. Qed.

(** ** An unreachable server *)

(** C4: when the navigation of a single-page script raises, the exception
    is caught, "Failed to navigate: <e>" is printed, the browser is closed
    and the routine returns: no idle wait and no screenshot call is made,
    no file is written, and the process ends with status 0. *)
Theorem unreachable_server_handled :
  forall sv e,
    nav sv LANDING_URL 60000 = Some e ->
    let tail :=
      [EPrint "Navigating to landing page...";
       EGoto 2 LANDING_URL 60000 (Some e);
       EPrint ("Failed to navigate: " ++ str e);
       EClose 0; EStop] in
    LANDING_URL = "http://localhost:6006/landing" /\
    fst (run verify_landing sv) = Normal tt /\
    exit_status verify_landing sv = 0%Z /\
    log (final verify_landing sv) = (setup_log desktop_options ++ tail)%list /\
    count is_screenshot (log (final verify_landing sv)) = 0 /\
    files (final verify_landing sv) = [] /\
    fst (run verify_landing_mobile sv) = Normal tt /\
    exit_status verify_landing_mobile sv = 0%Z /\
    log (final verify_landing_mobile sv) =
      (setup_log landing_mobile_options ++ tail)%list /\
    count is_screenshot (log (final verify_landing_mobile sv)) = 0 /\
    files (final verify_landing_mobile sv) = [].
Proof.
  intros sv e Hnav tail.
  unfold exit_status, final.
  rewrite verify_landing_run, verify_landing_mobile_run.
  unfold landing_run. rewrite Hnav. cbn [fst snd log files].
  repeat split.
Qed.

Lemma unreachable_server_witness :
  fst (run verify_landing server_down) = Normal tt /\
  files (final verify_landing server_down) = [] /\
  fst (run verify_landing_mobile server_down) = Normal tt /\
  files (final verify_landing_mobile server_down) = [].
Proof.
  destruct (unreachable_server_handled server_down
              (Error "net::ERR_CONNECTION_REFUSED") eq_refl)
    as [_ [H1 [_ [_ [_ [H2 [H3 [_ [_ [_ H4]]]]]]]]]].
  repeat split; assumption.
Defined.

(** ** Closing the browser *)

Lemma landing_run_returns opts taking path sv :
  no_unguarded_failure path sv ->
  fst (landing_run opts taking path sv) = Normal tt /\
  closes_last 0 (log (snd (landing_run opts taking path sv))).
Proof.
  unfold no_unguarded_failure, landing_run, closes_last.
  intros [Hnav|[Hidle Hshot]].
  - destruct (nav sv LANDING_URL 60000) as [e|]; [|contradiction].
    split; [reflexivity|]. cbn [snd log setup_log app].
    eexists (_ :: _ :: _ :: _ :: _ :: _ :: [_]); split; reflexivity.
  - rewrite Hidle, Hshot.
    destruct (nav sv LANDING_URL 60000) as [e|];
      (split; [reflexivity|]); cbn [snd log setup_log app].
    + eexists (_ :: _ :: _ :: _ :: _ :: _ :: [_]); split; reflexivity.
    + eexists (_ :: _ :: _ :: _ :: _ :: _ :: _ :: _ :: _ :: _ :: _ :: [_]);
        split; reflexivity.
Qed.

(** C6, as the code has it: in the single-page scripts the explicit
    [browser.close()] is the last browser call on every path on which the
    routine returns, that is after a navigation failure, which is caught,
    and after a run in which idle wait and screenshot went through; and on
    every path, the Playwright scope is left last. *)
Theorem landing_closes_browser_when_it_returns :
  forall sv,
    (no_unguarded_failure "verification_landing.png" sv ->
     fst (run verify_landing sv) = Normal tt /\
     closes_last 0 (log (final verify_landing sv))) /\
    (no_unguarded_failure "verification_landing_mobile.png" sv ->
     fst (run verify_landing_mobile sv) = Normal tt /\
     closes_last 0 (log (final verify_landing_mobile sv))) /\
    (exists l, log (final verify_landing sv) = (l ++ [EStop])%list) /\
    (exists l, log (final verify_landing_mobile sv) = (l ++ [EStop])%list).
Proof.
  intros sv. unfold final.
  rewrite verify_landing_run, verify_landing_mobile_run.
  split; [apply landing_run_returns|].
  split; [apply landing_run_returns|].
  split; apply landing_scope_left.
Qed.

Lemma landing_closes_witness :
  closes_last 0 (log (final verify_landing server_down)) /\
  closes_last 0 (log (final verify_landing_mobile server_up)).
Proof.
  split.
  - apply (proj1 (landing_closes_browser_when_it_returns server_down)).
    left; discriminate.
  - apply (proj1 (proj2 (landing_closes_browser_when_it_returns server_up))).
    right; split; reflexivity.
Defined.

(** C6, as stated, fails: when the idle wait raises, or the screenshot
    does, the routine is left without any [browser.close()]. *)
Lemma landing_exits_without_close :
  fst (run verify_landing never_idle) =
    Raised (TimeoutError "Timeout exceeded.") /\
  count is_close (log (final verify_landing never_idle)) = 0 /\
  fst (run verify_landing_mobile disk_full) =
    Raised (Error "ENOSPC: no space left on device") /\
  count is_close (log (final verify_landing_mobile disk_full)) = 0.
Proof. repeat split. Qed.

(** ** Exit status *)

(** C7, as the code has it: the multi-route runner catches every failure
    of a navigation, an idle wait or a screenshot, navigates to each route
    once whatever the outcome (nothing is retried), logs what [route_log]
    lists for the route and ends with status 0 for every combination of
    route outcomes.  A single-page script ends
    with status 0, after one navigation, when its navigation fails and
    when idle wait and screenshot go through. *)
Theorem failures_do_not_reach_exit_status :
  forall sv,
    fst (run verify_mobile_pages sv) = Normal tt /\
    exit_status verify_mobile_pages sv = 0%Z /\
    gotos (log (final verify_mobile_pages sv)) =
      map (fun p => (2, BASE_URL ++ p, 60000%Z)) PAGES /\
    log (final verify_mobile_pages sv) =
      (setup_log mobile_options ++ flat_map (route_log sv 2) PAGES ++
       [EClose 0; EStop])%list /\
    (no_unguarded_failure "verification_landing.png" sv ->
     exit_status verify_landing sv = 0%Z /\
     List.length (gotos (log (final verify_landing sv))) = 1) /\
    (no_unguarded_failure "verification_landing_mobile.png" sv ->
     exit_status verify_landing_mobile sv = 0%Z /\
     List.length (gotos (log (final verify_landing_mobile sv))) = 1).
Proof.
  intros sv.
  split; [apply mobile_returns|].
  split; [apply mobile_exit_status|].
  split; [apply mobile_gotos|].
  split; [apply mobile_log|].
  unfold exit_status, final.
  rewrite verify_landing_run, verify_landing_mobile_run.
  split; intros H.
  - destruct (landing_run_returns desktop_options "Taking screenshot..."
                "verification_landing.png" sv H) as [-> _].
    now rewrite landing_gotos.
  - destruct (landing_run_returns landing_mobile_options
                "Taking mobile screenshot..."
                "verification_landing_mobile.png" sv H) as [-> _].
    now rewrite landing_gotos.
Qed.

Lemma exit_status_witness :
  exit_status verify_mobile_pages disk_full = 0%Z /\
  exit_status verify_landing server_down = 0%Z /\
  exit_status verify_landing_mobile server_up = 0%Z.
Proof.
  destruct (failures_do_not_reach_exit_status disk_full) as [_ [Hm _]].
  destruct (failures_do_not_reach_exit_status server_down)
    as [_ [_ [_ [_ [Hd _]]]]].
  destruct (failures_do_not_reach_exit_status server_up)
    as [_ [_ [_ [_ [_ Hu]]]]].
  split; [exact Hm|]. split.
  - apply Hd. left; discriminate.
  - apply Hu. right; split; reflexivity.
Defined.

(** C7, as stated, fails: in a single-page script an idle wait that
    raises, or a screenshot that does, is caught nowhere; the exception
    leaves the routine and the process ends with status 1. *)
Lemma landing_failure_reaches_exit_status :
  exit_status verify_landing never_idle = 1%Z /\
  exit_status verify_landing_mobile never_idle = 1%Z /\
  exit_status verify_landing disk_full = 1%Z /\
  exit_status verify_landing_mobile disk_full = 1%Z.
Proof. repeat split. Qed.

(** ** More on file names *)

Section FileNameLaws.

Import PyStr.

Lemma replace_app old new s t :
  replace old new (s ++ t) = replace old new s ++ replace old new t.
Proof. induction s as [|c s IH]; cbn; auto. now rewrite IH. Qed.

Lemma replace_id old new s :
  contains old s = false -> replace old new s = s.
Proof.
  unfold contains. induction s as [|c s IH]; cbn; auto.
  intros H. apply orb_false_elim in H as [Hc Hs].
  rewrite Ascii.eqb_sym in Hc. rewrite Hc, IH; auto.
Qed.

Lemma replace_idem old new s :
  old <> new -> replace old new (replace old new s) = replace old new s.
Proof. intros H. apply replace_id, replace_removes, H. Qed.

Lemma lstrip_app chars s t :
  lstrip chars (s ++ t) =
  match lstrip chars s with
  | EmptyString => lstrip chars t
  | r => r ++ t
  end.
Proof.
  induction s as [|c s IH]; cbn; auto.
  destruct (mem c chars); auto.
Qed.

Lemma rstrip_app_char chars s c :
  mem c chars = true -> rstrip chars (s ++ String c "") = rstrip chars s.
Proof.
  intros Hc. induction s as [|d s IH]; cbn.
  - now rewrite Hc.
  - now rewrite IH.
Qed.

Lemma strip_cons_char chars s c :
  mem c chars = true -> strip chars (String c s) = strip chars s.
Proof. intros Hc. unfold strip. cbn. now rewrite Hc. Qed.

Lemma strip_app_char chars s c :
  mem c chars = true -> strip chars (s ++ String c "") = strip chars s.
Proof.
  intros Hc. unfold strip. rewrite lstrip_app.
  destruct (lstrip chars s) as [|d r] eqn:E.
  - cbn. now rewrite Hc.
  - now rewrite rstrip_app_char.
Qed.

Lemma lstrip_id chars s :
  (forall c, first_char s = Some c -> mem c chars = false) ->
  lstrip chars s = s.
Proof.
  destruct s as [|c s]; cbn; auto.
  intros H. now rewrite (H c eq_refl).
Qed.

Lemma rstrip_id chars s :
  (forall c, last_char s = Some c -> mem c chars = false) ->
  rstrip chars s = s.
Proof.
  induction s as [|d s IH]; cbn [rstrip]; auto.
  intros H. destruct s as [|d' s'].
  - cbn. now rewrite (H d eq_refl).
  - rewrite IH; auto.
Qed.

Lemma strip_idem chars s : strip chars (strip chars s) = strip chars s.
Proof.
  destruct (strip_spec chars s) as [_ [Hf Hl]].
  unfold strip at 1. rewrite lstrip_id by exact Hf. now apply rstrip_id.
Qed.

End FileNameLaws.

(** X1: whatever the route, the file name derived from it is not empty,
    holds no slash and neither starts nor ends with an underscore. *)
Theorem filename_shape :
  forall path,
    filename path <> "" /\
    PyStr.contains "/" (filename path) = false /\
    PyStr.startswith "_" (filename path) = false /\
    PyStr.endswith "_" (filename path) = false.
Proof.
  intros path. split.
  { pose proof (filename_nonempty path) as H. intros E. rewrite E in H.
    discriminate. }
  split; [apply filename_no_slash|].
  unfold filename.
  destruct (PyStr.is_empty (PyStr.strip "_" (PyStr.replace "/" "_" path)));
    [split; reflexivity|].
  apply (strip_no_edge "_").
Qed.

(** X3: the file name does not see slashes at either end of the route,
    nor whether a separator is a slash or an underscore: routes that
    differ only in these write to the same file. *)
Theorem filename_blind_to_edges_and_separator :
  forall path,
    filename ("/" ++ path) = filename path /\
    filename (path ++ "/") = filename path /\
    filename ("_" ++ path) = filename path /\
    filename (path ++ "_") = filename path /\
    filename (PyStr.replace "/" "_" path) = filename path.
Proof.
  intros path. unfold filename.
  assert (Hslash : forall s, PyStr.replace "/" "_" (String "/" s) =
                             String "_" (PyStr.replace "/" "_" s))
    by reflexivity.
  assert (Hunder : forall s, PyStr.replace "/" "_" (String "_" s) =
                             String "_" (PyStr.replace "/" "_" s))
    by reflexivity.
  split; [|split; [|split; [|split]]].
  - change ("/" ++ path) with (String "/" path).
    now rewrite Hslash, strip_cons_char.
  - now rewrite replace_app, Hslash, strip_app_char.
  - change ("_" ++ path) with (String "_" path).
    now rewrite Hunder, strip_cons_char.
  - now rewrite replace_app, Hunder, strip_app_char.
  - rewrite replace_idem; [reflexivity|]. intros [=].
Qed.

(** X4: naming is idempotent: a derived file name, taken as a route, is
    its own file name. *)
Theorem filename_idempotent :
  forall path, filename (filename path) = filename path.
Proof.
  intros path.
  pose proof (filename_no_slash path) as Hslash.
  unfold filename at 2 3.
  destruct (PyStr.is_empty (PyStr.strip "_" (PyStr.replace "/" "_" path)))
    eqn:E; [reflexivity|].
  assert (Hs : PyStr.contains "/" (PyStr.strip "_" (PyStr.replace "/" "_" path))
               = false).
  { unfold filename in Hslash. now rewrite E in Hslash. }
  unfold filename. rewrite (replace_id _ _ _ Hs), strip_idem, E.
  reflexivity.
Qed.

(** ** More on the run of [verify_mobile.py] *)

Section MobileMore.

Lemma In_fold_add_shot_inv f l fs :
  In f (fold_left add_shot l fs) ->
  In f fs \/ exists p, In p l /\ f = screenshot_path p.
Proof.
  revert fs; induction l as [|p l IH]; cbn [fold_left]; auto.
  intros fs H. apply IH in H as [H|[q [Hq ->]]].
  - unfold add_shot, add_file in H.
    destruct (existsb (String.eqb (screenshot_path p)) fs); auto.
    apply in_app_or in H as [H|[<-|[]]]; auto.
    right; exists p; cbn; auto.
  - right; exists q; cbn; auto.
Qed.

Lemma fold_add_shot_present l fs :
  (forall p, In p l -> In (screenshot_path p) fs) ->
  fold_left add_shot l fs = fs.
Proof.
  revert fs; induction l as [|p l IH]; cbn [fold_left]; auto.
  intros fs H. unfold add_shot at 2.
  rewrite add_file_present by (apply H; cbn; auto).
  apply IH. intros q Hq. apply H; cbn; auto.
Qed.

Lemma shots_attempted_app l1 l2 :
  shots_attempted (l1 ++ l2) = (shots_attempted l1 ++ shots_attempted l2)%list.
Proof.
  induction l1 as [|e l1 IH]; cbn; auto.
  destruct e; cbn; auto. now rewrite IH.
Qed.

Lemma prints_app l1 l2 : prints (l1 ++ l2) = (prints l1 ++ prints l2)%list.
Proof.
  induction l1 as [|e l1 IH]; cbn; auto.
  destruct e; cbn; auto. now rewrite IH.
Qed.

Lemma lines_with_app start l1 l2 :
  lines_with start (l1 ++ l2) = lines_with start l1 + lines_with start l2.
Proof. unfold lines_with. now rewrite prints_app, filter_app, length_app. Qed.

Lemma lines_with_flat_map {A} start (g : A -> list event) (f : A -> bool) l :
  (forall x, lines_with start (g x) = if f x then 1 else 0) ->
  lines_with start (flat_map g l) = List.length (filter f l).
Proof.
  intros H. induction l as [|x l IH]; cbn [flat_map filter]; auto.
  rewrite lines_with_app, H, IH. now destruct (f x).
Qed.

Lemma prefix_empty s : String.prefix "" s = true.
Proof. now destruct s. Qed.

Variables (sv : server) (page : handle).

Lemma shots_attempted_route_log path :
  shots_attempted (route_log sv page path) =
  if nav_ok sv path then [(page, screenshot_path path, true)] else [].
Proof.
  unfold route_log, nav_ok. cbn [shots_attempted].
  destruct (nav sv (BASE_URL ++ path) 60000); cbn [shots_attempted]; auto.
  rewrite shots_attempted_app.
  destruct (idle sv (BASE_URL ++ path) (Some 10000%Z)),
    (shot sv (BASE_URL ++ path) (screenshot_path path)); reflexivity.
Qed.

Lemma shots_attempted_loop pages :
  shots_attempted (flat_map (route_log sv page) pages) =
  map (fun path => (page, screenshot_path path, true))
    (filter (nav_ok sv) pages).
Proof.
  induction pages as [|path pages IH]; cbn [flat_map map filter]; auto.
  rewrite shots_attempted_app, shots_attempted_route_log, IH.
  destruct (nav_ok sv path); reflexivity.
Qed.

Ltac route_lines path :=
  unfold route_log, lines_with, captured, nav_ok;
  destruct (nav sv (BASE_URL ++ path) 60000),
    (idle sv (BASE_URL ++ path) (Some 10000%Z)),
    (shot sv (BASE_URL ++ path) (screenshot_path path));
  cbn; rewrite ?prefix_empty; reflexivity.

Lemma route_log_testing path :
  lines_with "Testing " (route_log sv page path) = 1.
Proof. route_lines path. Qed.

Lemma route_log_saved path :
  lines_with "Saved screenshot to " (route_log sv page path) =
  if captured sv path then 1 else 0.
Proof. route_lines path. Qed.

Lemma route_log_error path :
  lines_with "Error testing " (route_log sv page path) =
  if negb (captured sv path) then 1 else 0.
Proof. route_lines path. Qed.

Lemma route_log_idle path :
  lines_with "Network idle timeout for " (route_log sv page path) =
  if nav_ok sv path &&
     match idle sv (BASE_URL ++ path) (Some 10000%Z) with
     | Some _ => true
     | None => false
     end
  then 1 else 0.
Proof. route_lines path. Qed.

End MobileMore.

(** X2: whatever the routes and whatever the server answers, every file
    the multi-route runner leaves is the screenshot of a captured route of
    its list, at "verification/mobile/<name>.png" with a name that is not
    empty and holds no slash: no route makes it write outside that
    directory. *)
Theorem files_stay_in_output_directory :
  forall sv pages f,
    In f (files (final (verify_mobile_pages_over pages) sv)) ->
    exists path,
      In path pages /\ captured sv path = true /\
      f = "verification/mobile/" ++ filename path ++ ".png" /\
      filename path <> "" /\
      PyStr.contains "/" (filename path) = false.
Proof.
  intros sv pages f Hin. rewrite mobile_files in Hin.
  apply In_fold_add_shot_inv in Hin as [[]|[p [Hp ->]]].
  apply filter_In in Hp as [Hp Hcap].
  exists p. repeat split; auto.
  - pose proof (filename_nonempty p) as H. intros E. rewrite E in H.
    discriminate.
  - apply filename_no_slash.
Qed.

Lemma files_stay_witness :
  exists path,
    In path PAGES /\ captured login_down path = true /\
    "verification/mobile/docs.png" =
      "verification/mobile/" ++ filename path ++ ".png" /\
    filename path <> "" /\
    PyStr.contains "/" (filename path) = false.
Proof.
  apply (files_stay_in_output_directory login_down PAGES).
  vm_compute. tauto.
Defined.

(** X5: for every combination of route outcomes, the files the multi-route
    runner leaves are exactly the screenshots of the routes whose
    navigation and screenshot both went through, in the order of the list,
    provided no two routes of the list share a file path; the routes that
    left no file are the others. *)
Theorem files_are_the_captured_routes :
  forall sv pages,
    NoDup (map screenshot_path pages) ->
    let w := final (verify_mobile_pages_over pages) sv in
    files w = map screenshot_path (filter (captured sv) pages) /\
    files w = shots_taken (log w) /\
    NoDup (files w) /\
    List.length (files w) +
    List.length (filter (fun p => negb (captured sv p)) pages) =
    List.length pages.
Proof.
  intros sv pages Hnd w.
  assert (Hfiles : files w = map screenshot_path (filter (captured sv) pages)).
  { unfold w. rewrite mobile_files. apply fold_add_shot_NoDup. cbn [app].
    now apply NoDup_map_filter. }
  split; [exact Hfiles|].
  split; [unfold w in *; now rewrite Hfiles, mobile_shots_taken|].
  split; [rewrite Hfiles; now apply NoDup_map_filter|].
  rewrite Hfiles, length_map. clear.
  induction pages as [|p pages IH]; cbn [filter]; auto.
  destruct (captured sv p); cbn [negb List.length]; lia.
Qed.

Lemma files_are_the_captured_routes_witness :
  files (final (verify_mobile_pages_over PAGES) disk_full) = [] /\
  List.length (files (final (verify_mobile_pages_over PAGES) server_up)) = 10.
Proof.
  destruct (files_are_the_captured_routes disk_full PAGES)
    as [Hfull _]; [apply nodupb_NoDup; reflexivity|].
  destruct (files_are_the_captured_routes server_up PAGES)
    as [Hup _]; [apply nodupb_NoDup; reflexivity|].
  split; [exact Hfull | now rewrite Hup].
Defined.

(** X6: the idle wait decides nothing in the multi-route runner: two
    servers that answer navigations and screenshots alike, whatever their
    idle waits do, give the same navigations, the same screenshot calls,
    the same files and the same exit status. *)
Theorem idle_wait_decides_nothing :
  forall sv sv' pages,
    (forall url timeout, nav sv url timeout = nav sv' url timeout) ->
    (forall url path, shot sv url path = shot sv' url path) ->
    let w := final (verify_mobile_pages_over pages) sv in
    let w' := final (verify_mobile_pages_over pages) sv' in
    gotos (log w) = gotos (log w') /\
    shots_attempted (log w) = shots_attempted (log w') /\
    shots_taken (log w) = shots_taken (log w') /\
    files w = files w' /\
    exit_status (verify_mobile_pages_over pages) sv =
    exit_status (verify_mobile_pages_over pages) sv'.
Proof.
  intros sv sv' pages Hnav Hshot w w'. unfold w, w'.
  assert (Hcap : forall p, captured sv p = captured sv' p).
  { intros p. unfold captured. now rewrite Hnav, Hshot. }
  assert (Hok : forall p, nav_ok sv p = nav_ok sv' p).
  { intros p. unfold nav_ok. now rewrite Hnav. }
  rewrite !mobile_gotos, !mobile_shots_taken, !mobile_files,
    !mobile_exit_status, !mobile_log.
  rewrite !shots_attempted_app, !shots_attempted_loop.
  rewrite (filter_ext _ _ Hcap), (filter_ext _ _ Hok).
  repeat split.
Qed.

Lemma idle_wait_witness :
  files (final (verify_mobile_pages_over PAGES) server_up) =
  files (final (verify_mobile_pages_over PAGES) never_idle).
Proof.
  apply (idle_wait_decides_nothing server_up never_idle PAGES);
    intros; reflexivity.
Defined.

(** X11: each route gets one "Testing" line and exactly one verdict line:
    "Saved screenshot to" when it was captured, "Error testing" when it
    was not; a "Network idle timeout for" line is printed for the routes
    that were navigated to and whose idle wait raised. *)
Theorem one_verdict_line_per_route :
  forall sv pages,
    let l := log (final (verify_mobile_pages_over pages) sv) in
    lines_with "Testing " l = List.length pages /\
    lines_with "Saved screenshot to " l =
      List.length (filter (captured sv) pages) /\
    lines_with "Error testing " l =
      List.length (filter (fun p => negb (captured sv p)) pages) /\
    lines_with "Saved screenshot to " l + lines_with "Error testing " l =
      List.length pages /\
    lines_with "Saved screenshot to " l = List.length (shots_taken l) /\
    lines_with "Network idle timeout for " l =
      List.length
        (filter (fun p =>
                   nav_ok sv p &&
                   match idle sv (BASE_URL ++ p) (Some 10000%Z) with
                   | Some _ => true
                   | None => false
                   end) pages).
Proof.
  intros sv pages l.
  assert (Ht : lines_with "Testing " l = List.length pages).
  { unfold l. rewrite mobile_log, !lines_with_app.
    rewrite (lines_with_flat_map _ _ (fun _ => true))
      by (intros; apply route_log_testing).
    cbn. rewrite forallb_filter_id; auto. now apply forallb_forall. }
  assert (Hs : lines_with "Saved screenshot to " l =
               List.length (filter (captured sv) pages)).
  { unfold l. rewrite mobile_log, !lines_with_app.
    rewrite (lines_with_flat_map _ _ (captured sv))
      by (intros; apply route_log_saved).
    cbn. lia. }
  assert (He : lines_with "Error testing " l =
               List.length (filter (fun p => negb (captured sv p)) pages)).
  { unfold l. rewrite mobile_log, !lines_with_app.
    rewrite (lines_with_flat_map _ _ (fun p => negb (captured sv p)))
      by (intros; apply route_log_error).
    cbn. lia. }
  split; [exact Ht|]. split; [exact Hs|]. split; [exact He|].
  split.
  { rewrite Hs, He. clear.
    induction pages as [|p pages IH]; cbn [filter]; auto.
    destruct (captured sv p); cbn [negb List.length]; lia. }
  split.
  { rewrite Hs. unfold l. now rewrite mobile_shots_taken, length_map. }
  unfold l. rewrite mobile_log, !lines_with_app.
  rewrite (lines_with_flat_map _ _
             (fun p => nav_ok sv p &&
                       match idle sv (BASE_URL ++ p) (Some 10000%Z) with
                       | Some _ => true
                       | None => false
                       end))
    by (intros; apply route_log_idle).
  cbn. lia.
Qed.

(** X13: a screenshot is attempted for exactly the routes whose navigation
    went through, whatever their idle wait did, once each and in the order
    of the list, always full-page, on the one page of the run and at the
    route's own path. *)
Theorem screenshot_attempted_iff_navigated :
  forall sv pages,
    shots_attempted (log (final (verify_mobile_pages_over pages) sv)) =
    map (fun path => (2, screenshot_path path, true))
      (filter (nav_ok sv) pages).
Proof.
  intros sv pages.
  rewrite mobile_log, !shots_attempted_app, shots_attempted_loop.
  cbn. now rewrite app_nil_r.
Qed.

(** ** More on the single-page scripts *)

(** X7: a single-page script leaves its screenshot file exactly when
    navigation, idle wait and screenshot all went through, and otherwise
    leaves no file.  A failed navigation never reaches the caller; the
    exception that does is the one of the idle wait, or else the one of
    the screenshot, and then the exit status is 1. *)
Theorem landing_file_iff_all_steps_succeed :
  forall sv,
    let outcome path :=
      match nav sv LANDING_URL 60000 with
      | Some _ => Normal tt
      | None =>
          match idle sv LANDING_URL None with
          | Some e => Raised e
          | None =>
              match shot sv LANDING_URL path with
              | Some e => Raised e
              | None => Normal tt
              end
          end
      end in
    let status path :=
      match outcome path with Raised _ => 1%Z | _ => 0%Z end in
    files (final verify_landing sv) =
      (if landing_captured "verification_landing.png" sv
       then ["verification_landing.png"] else []) /\
    fst (run verify_landing sv) = outcome "verification_landing.png" /\
    exit_status verify_landing sv = status "verification_landing.png" /\
    files (final verify_landing_mobile sv) =
      (if landing_captured "verification_landing_mobile.png" sv
       then ["verification_landing_mobile.png"] else []) /\
    fst (run verify_landing_mobile sv) =
      outcome "verification_landing_mobile.png" /\
    exit_status verify_landing_mobile sv =
      status "verification_landing_mobile.png".
Proof.
  intros sv outcome status. unfold status, outcome, exit_status, final.
  rewrite verify_landing_run, verify_landing_mobile_run.
  unfold landing_run, landing_captured.
  destruct (nav sv LANDING_URL 60000), (idle sv LANDING_URL None),
    (shot sv LANDING_URL "verification_landing.png"),
    (shot sv LANDING_URL "verification_landing_mobile.png");
    repeat split.
Qed.

Lemma landing_screenshot_settled opts taking path sv p path' fp r :
  In (EScreenshot p path' fp r) (log (snd (landing_run opts taking path sv))) ->
  p = 2 /\ path' = path /\ fp = true /\
  nav sv LANDING_URL 60000 = None /\
  idle sv LANDING_URL None = None /\
  r = shot sv LANDING_URL path /\
  exists before after,
    log (snd (landing_run opts taking path sv)) =
    (before ++
     [EGoto 2 LANDING_URL 60000 None;
      EPrint "Waiting for network idle...";
      EWait 2 "networkidle" None None;
      ESleep 3;
      EPrint taking;
      EScreenshot p path' fp r] ++ after)%list.
Proof.
  unfold landing_run.
  destruct (nav sv LANDING_URL 60000) as [e1|],
    (idle sv LANDING_URL None) as [e2|],
    (shot sv LANDING_URL path) as [e3|];
    cbn [snd log setup_log app In]; intros H;
    repeat (destruct H as [H|H]; [try discriminate H|]);
    try contradiction;
    injection H as <- <- <- <-; repeat split;
    eexists (_ :: _ :: _ :: _ :: [_]), _; reflexivity.
Qed.

(** X8: a single-page script calls the screenshot only once the page has
    settled: any screenshot call in its log is on the page of the run, at
    the script's own path and full-page, and comes right after a
    navigation that went through, an idle wait that went through, the
    sleep of 3 seconds and the line announcing it. *)
Theorem landing_screenshot_only_after_settling :
  forall sv p path fp r,
    (In (EScreenshot p path fp r) (log (final verify_landing sv)) ->
     p = 2 /\ path = "verification_landing.png" /\ fp = true /\
     nav sv LANDING_URL 60000 = None /\
     idle sv LANDING_URL None = None /\
     r = shot sv LANDING_URL "verification_landing.png" /\
     exists before after,
       log (final verify_landing sv) =
       (before ++
        [EGoto 2 LANDING_URL 60000 None;
         EPrint "Waiting for network idle...";
         EWait 2 "networkidle" None None;
         ESleep 3;
         EPrint "Taking screenshot...";
         EScreenshot p path fp r] ++ after)%list) /\
    (In (EScreenshot p path fp r) (log (final verify_landing_mobile sv)) ->
     p = 2 /\ path = "verification_landing_mobile.png" /\ fp = true /\
     nav sv LANDING_URL 60000 = None /\
     idle sv LANDING_URL None = None /\
     r = shot sv LANDING_URL "verification_landing_mobile.png" /\
     exists before after,
       log (final verify_landing_mobile sv) =
       (before ++
        [EGoto 2 LANDING_URL 60000 None;
         EPrint "Waiting for network idle...";
         EWait 2 "networkidle" None None;
         ESleep 3;
         EPrint "Taking mobile screenshot...";
         EScreenshot p path fp r] ++ after)%list).
Proof.
  intros sv p path fp r. unfold final.
  rewrite verify_landing_run, verify_landing_mobile_run.
  split; apply landing_screenshot_settled.
Qed.

Lemma landing_screenshot_witness :
  nav disk_full LANDING_URL 60000 = None /\
  idle disk_full LANDING_URL None = None.
Proof.
  destruct (landing_screenshot_only_after_settling disk_full 2
              "verification_landing.png" true
              (Some (Error "ENOSPC: no space left on device")))
    as [H _].
  destruct H as [_ [_ [_ [Hnav [Hidle _]]]]].
  - vm_compute. tauto.
  - split; assumption.
Defined.

(** ** Closing once, and running again *)

Lemma quiet_after_close_app l l' :
  count is_close l = 0 ->
  quiet_after_close (l ++ l') = quiet_after_close l'.
Proof.
  unfold count. induction l as [|e l IH]; cbn [app]; auto.
  destruct e; cbn [filter is_close List.length quiet_after_close]; auto.
  discriminate.
Qed.

Lemma closes_last_once b l :
  closes_last b l -> count is_close l = 1 /\ quiet_after_close l = true.
Proof.
  intros [l' [-> H0]]. split.
  - now rewrite count_app, H0.
  - now rewrite quiet_after_close_app.
Qed.

Lemma landing_run_close_once opts taking path sv :
  count is_close (log (snd (landing_run opts taking path sv))) <= 1 /\
  quiet_after_close (log (snd (landing_run opts taking path sv))) = true.
Proof.
  unfold landing_run.
  destruct (nav sv LANDING_URL 60000), (idle sv LANDING_URL None),
    (shot sv LANDING_URL path); cbn; auto.
Qed.

(** X9: no script closes the browser twice or touches it after closing
    it: in every run, whatever the server answers, there is at most one
    [browser.close()] and nothing follows it but leaving the Playwright
    scope.  The multi-route runner closes it exactly once. *)
Theorem browser_closed_once_and_left_alone :
  forall sv pages,
    count is_close (log (final (verify_mobile_pages_over pages) sv)) = 1 /\
    quiet_after_close (log (final (verify_mobile_pages_over pages) sv)) = true /\
    count is_close (log (final verify_landing sv)) <= 1 /\
    quiet_after_close (log (final verify_landing sv)) = true /\
    count is_close (log (final verify_landing_mobile sv)) <= 1 /\
    quiet_after_close (log (final verify_landing_mobile sv)) = true.
Proof.
  intros sv pages.
  destruct (closes_last_once 0 _ (mobile_closes_last sv pages)) as [H1 H2].
  split; [exact H1|]. split; [exact H2|].
  unfold final. rewrite verify_landing_run, verify_landing_mobile_run.
  pose proof (landing_run_close_once desktop_options "Taking screenshot..."
                "verification_landing.png" sv).
  pose proof (landing_run_close_once landing_mobile_options
                "Taking mobile screenshot..."
                "verification_landing_mobile.png" sv).
  tauto.
Qed.

Lemma mobile_files_from sv pages w :
  exists w',
    verify_mobile_pages_over pages sv w = (Normal tt, w') /\
    files w' = fold_left add_shot (filter (captured sv) pages) (files w).
Proof.
  unfold verify_mobile_pages_over, def, with_sync_playwright.
  unfold bind at 1 2 3. unfold launch, new_context, new_page, emit_event.
  cbn [log files next location].
  match goal with
  | |- context [for_each pages (route_body ?p) ;; _] => unfold bind at 1
  end.
  match goal with
  | |- context [for_each pages (route_body ?p) sv ?w0] =>
      destruct (for_each_route_run sv p pages w0) as [w1 [Hrun [_ [Hfiles _]]]]
  end.
  rewrite Hrun. unfold close, emit, emit_event.
  eexists; split; [reflexivity|]. exact Hfiles.
Qed.

Lemma landing_files_from sv w :
  files (snd (verify_landing sv w)) =
    (if landing_captured "verification_landing.png" sv
     then add_file "verification_landing.png" (files w) else files w) /\
  files (snd (verify_landing_mobile sv w)) =
    (if landing_captured "verification_landing_mobile.png" sv
     then add_file "verification_landing_mobile.png" (files w) else files w).
Proof.
  unfold verify_landing, verify_landing_mobile, landing_captured, LANDING_URL.
  unfold def, with_sync_playwright, bind, try_except, launch,
    new_context, new_page, print, sleep, close, emit, goto,
    wait_for_load_state, screenshot, py_return, emit_event.
  cbn [log files next location url_at].
  destruct (nav sv "http://localhost:6006/landing" 60000);
    cbn [log files next location url_at snd]; [split; reflexivity|].
  rewrite Nat.eqb_refl.
  destruct (idle sv "http://localhost:6006/landing" None);
    cbn [log files next location url_at snd]; [split; reflexivity|].
  rewrite ?Nat.eqb_refl.
  destruct (shot sv "http://localhost:6006/landing" "verification_landing.png"),
    (shot sv "http://localhost:6006/landing" "verification_landing_mobile.png");
    cbn [log files next location url_at snd]; split; reflexivity.
Qed.

Lemma add_file_idem path fs : add_file path (add_file path fs) = add_file path fs.
Proof.
  apply add_file_present. unfold add_file.
  destruct (existsb (String.eqb path) fs) eqn:E.
  - now apply existsb_eqb_In.
  - apply in_or_app; right; now left.
Qed.

(** X10: running a script again against the same server, in the world the
    first run left, leaves the same files: each screenshot is written
    over the one of the first run, at the same path, and no other file
    appears.  This holds for the multi-route runner on any list of routes
    and for both single-page scripts. *)
Theorem rerun_leaves_the_same_files :
  forall sv pages,
    files (snd (rerun (verify_mobile_pages_over pages) sv)) =
      files (final (verify_mobile_pages_over pages) sv) /\
    fst (rerun (verify_mobile_pages_over pages) sv) = Normal tt /\
    files (snd (rerun verify_landing sv)) = files (final verify_landing sv) /\
    files (snd (rerun verify_landing_mobile sv)) =
      files (final verify_landing_mobile sv).
Proof.
  intros sv pages. unfold rerun.
  destruct (mobile_files_from sv pages
              (final (verify_mobile_pages_over pages) sv))
    as [w' [Hrun Hfiles]].
  rewrite Hrun. cbn [fst snd].
  split.
  { rewrite Hfiles. apply fold_add_shot_present.
    intros p Hp. rewrite mobile_files. now apply In_fold_add_shot. }
  split; [reflexivity|].
  destruct (landing_files_from sv (final verify_landing sv)) as [H1 _].
  destruct (landing_files_from sv (final verify_landing_mobile sv)) as [_ H2].
  rewrite H1, H2. unfold final, run.
  destruct (landing_files_from sv init) as [-> ->].
  split.
  - destruct (landing_captured "verification_landing.png" sv);
      [apply add_file_idem | reflexivity].
  - destruct (landing_captured "verification_landing_mobile.png" sv);
      [apply add_file_idem | reflexivity].
Qed.

(** ** What the printed lines say *)




Lemma NoDup_map_injective {A B} (f : A -> B) l :
  (forall x y, f x = f y -> x = y) -> NoDup l -> NoDup (map f l).
Proof.
  intros Hinj. induction 1 as [|x l Hnin Hnd IH]; cbn; constructor; auto.
  intros Hin. apply in_map_iff in Hin as [y [Heq Hy]].
  apply Hinj in Heq. now subst.
Qed.

(** X12: routes that differ are navigated to at addresses that differ: on
    a list of routes without repetition the runner never asks for the same
    address twice. *)
Theorem distinct_routes_distinct_addresses :
  forall sv pages,
    NoDup pages ->
    NoDup (gotos (log (final (verify_mobile_pages_over pages) sv))) /\
    NoDup (map (fun path => BASE_URL ++ path) pages).
Proof.
  intros sv pages Hnd. rewrite mobile_gotos. split.
  - apply NoDup_map_injective; auto.
    intros x y [= H]. exact H.
  - apply NoDup_map_injective; auto.
    intros x y H. now apply append_inj_l in H.
Qed.

Lemma distinct_addresses_witness :
  NoDup (map (fun path => BASE_URL ++ path) PAGES).
Proof.
  apply (distinct_routes_distinct_addresses server_up PAGES).
  apply nodupb_NoDup. reflexivity.
Defined.
